(** * cppclasscreator: the createClassFiles command of the VS Code extension

    A shallow embedding of the two revisions of the command found in the
    repository:
    - [Ext]: src/src/extension.ts (base-folder picker with subfolder
      narrowing, include directive built by stripping an "include/" prefix);
    - [Rel]: src/unnamed/part_000 (first workspace root, include directive
      computed with path.relative).

    Strings are [String.string] (ASCII characters).  JavaScript's
    [String.prototype.trim] is modelled on the ASCII whitespace characters.
    Paths follow the POSIX conventions of Node's [path] module and of
    [vscode.Uri.joinPath] (which normalises with [path.posix]). *)

From Stdlib Require Import String Ascii List Bool Arith Lia.
Import ListNotations.
Open Scope list_scope.
Open Scope string_scope.

(** ** Characters and string helpers *)

Definition nl : string := String "010"%char EmptyString.
Definition dq : string := String "034"%char EmptyString.

(** JavaScript truthiness of a string: [undefined] and [""] are falsy. *)
Definition nonEmpty (o : option string) : option string :=
  match o with
  | Some s => if String.eqb s "" then None else Some s
  | None => None
  end.

Definition is_ws (c : ascii) : bool :=
  let n := nat_of_ascii c in Nat.eqb n 32 || (Nat.leb 9 n && Nat.leb n 13).

Fixpoint trim_left (s : string) : string :=
  match s with
  | EmptyString => EmptyString
  | String c s' => if is_ws c then trim_left s' else s
  end.

Fixpoint trim_right (s : string) : string :=
  match s with
  | EmptyString => EmptyString
  | String c s' =>
      let r := trim_right s' in
      if is_ws c && String.eqb r "" then EmptyString else String c r
  end.

(** [s.trim()] *)
Definition trim (s : string) : string := trim_right (trim_left s).

(** [s.split('::')]: left-to-right, non-overlapping separators. *)
Fixpoint split_dc_go (s : string) : string * list string :=
  match s with
  | EmptyString => (EmptyString, [])
  | String c s' =>
      if Ascii.eqb c ":" then
        match s' with
        | String d s'' =>
            if Ascii.eqb d ":" then
              let (cur, rest) := split_dc_go s'' in ("", cur :: rest)
            else let (cur, rest) := split_dc_go s' in (String c cur, rest)
        | EmptyString => let (cur, rest) := split_dc_go s' in (String c cur, rest)
        end
      else let (cur, rest) := split_dc_go s' in (String c cur, rest)
  end.

Definition split_dc (s : string) : list string :=
  let (cur, rest) := split_dc_go s in cur :: rest.

(** [s.split(ch)] for a one-character separator. *)
Fixpoint split_char_go (sep : ascii) (s : string) : string * list string :=
  match s with
  | EmptyString => (EmptyString, [])
  | String c s' =>
      let (cur, rest) := split_char_go sep s' in
      if Ascii.eqb c sep then ("", cur :: rest) else (String c cur, rest)
  end.

Definition split_char (sep : ascii) (s : string) : list string :=
  let (cur, rest) := split_char_go sep s in cur :: rest.

(** [arr.join(sep)] *)
Definition join (sep : string) (l : list string) : string := String.concat sep l.

(** Substring search: [haystack.includes(p)]. *)
Fixpoint containsb (p s : string) : bool :=
  String.prefix p s ||
  match s with
  | EmptyString => false
  | String _ s' => containsb p s'
  end.

(** ** Namespace blocks (identical in both revisions)

    extension.ts lines 148-156, part_000 lines 81-89. *)
Definition namespaceBlocks (nsInput : option string) : string * string :=
  match nsInput with
  | Some ns =>
      if negb (String.eqb ns "") && negb (String.eqb (trim ns) "") then
        let nsParts :=
          filter (fun s => negb (String.eqb s "")) (map trim (split_dc ns)) in
        match nsParts with
        | [] => ("", "")
        | _ => (join nl (map (fun n => "namespace " ++ n ++ " {") nsParts),
                join nl (map (fun _ => "}") nsParts))
        end
      else ("", "")
  | None => ("", "")
  end.

(** The namespace path as the spec describes it: split on "::", trim every
    segment, drop the empty ones. *)
Definition spec_namespacePath (ns : string) : list string :=
  filter (fun s => negb (String.eqb s "")) (map trim (split_dc ns)).

Definition spec_openNamespaces (parts : list string) : string :=
  join nl (map (fun n => "namespace " ++ n ++ " {") parts).

Definition spec_closeNamespaces (parts : list string) : string :=
  join nl (map (fun _ => "}") parts).

(** The copyright notice template (both revisions). *)
Definition noticeText (author projectName : string) : string :=
  "/*" ++ nl ++
  " * Copyright (c) 2025 " ++ author ++ nl ++
  " * All rights reserved." ++ nl ++
  " *" ++ nl ++
  " * This file is part of " ++ projectName ++ "." ++ nl ++
  " * Unauthorized copying of this file, via any medium is strictly prohibited." ++ nl ++
  " * Proprietary and confidential." ++ nl ++
  " */" ++ nl.

(** [`#include "${x}.hpp"`] *)
Definition includeLine (x : string) : string :=
  "#include " ++ dq ++ x ++ ".hpp" ++ dq.

(** ** Paths

    A URI path or a resolved absolute file-system path is the list of its
    segments.  [normalizeSegs] is the POSIX normalisation of an absolute path
    ([path.posix.normalize] / [path.resolve]): empty and "." segments vanish,
    ".." removes the previous segment (and stays at the root). *)
Definition path := list string.

Definition normStep (acc : list string) (x : string) : list string :=
  if String.eqb x "" || String.eqb x "." then acc
  else if String.eqb x ".." then tl acc
  else x :: acc.

Definition normalizeSegs (l : list string) : path :=
  rev (fold_left normStep l []).

(** The segments that normalization keeps as they are. *)
Definition keepSeg (x : string) : bool := negb (String.eqb x "" || String.eqb x ".").

(** [vscode.Uri.joinPath(base, ...fragments)] *)
Definition joinPath (base : path) (frags : list string) : path :=
  normalizeSegs (base ++ flat_map (split_char "/") frags)%list.

(** [uri.fsPath] of a file URI *)
Definition fsPath (u : path) : string := "/" ++ join "/" u.

Definition basename (u : path) : string := last u "".

(** [path.join(wsPath, sub)] followed by the resolution that [path.relative]
    applies to its arguments: the resolved absolute path, as segments. *)
Definition pathJoin (wsPath sub : string) : path :=
  normalizeSegs (split_char "/" wsPath ++ split_char "/" sub)%list.

Fixpoint dropCommon (from to : path) : path * path :=
  match from, to with
  | x :: f, y :: t => if String.eqb x y then dropCommon f t else (from, to)
  | _, _ => (from, to)
  end.

(** [path.relative(from, to)] on resolved absolute paths. *)
Definition pathRelative (from to : path) : string :=
  let (f, t) := dropCommon from to in
  join "/" (repeat ".." (length f) ++ t)%list.

(** ** The host: prompts, file system and messages

    Every prompt site of the command is shown at most once per invocation,
    so the user is a function from prompt sites to answers ([None]: the
    prompt was dismissed). *)
Inductive prompt :=
| PWorkspace | PSubfolder | PAuthor | PProject | PClassName | PNamespace
| PPlacement | PHeaderFolder | PSourceFolder | PTargetFolder.


(** Which [writeFile] call site performed a write. *)
Inductive wkind := WCopyright | WHeader | WSource.

Inductive event :=
| EAsk (p : prompt) (value : string)
| EWrite (k : wkind) (u : path) (text : string)
| EError (msg : string)
| EInfo (msg : string).

Record St := mkSt { files : list (path * string); log : list event }.

(** What the host answers: the user's answers, the workspace folders
    (name and URI), directory listings ([None]: the listing raises; an entry
    is a name and whether it is a directory) and the URIs whose write
    raises. *)
Record Env := mkEnv {
  user : prompt -> option string;
  workspaceFolders : list (string * path);
  readDirectoryResult : path -> option (list (string * bool));
  writeFails : path -> bool }.

Inductive res (A : Type) := Ok (a : A) | Thrown (msg : string).
Arguments Ok {A} a.
Arguments Thrown {A} msg.

(** Reader, state and exception monad of the async command. *)
Definition M (A : Type) := Env -> St -> res A * St.

Definition ret {A} (a : A) : M A := fun _ s => (Ok a, s).
Definition bind {A B} (m : M A) (k : A -> M B) : M B :=
  fun h s => match m h s with
             | (Ok a, s') => k a h s'
             | (Thrown e, s') => (Thrown e, s')
             end.
Definition throw {A} (msg : string) : M A := fun _ s => (Thrown msg, s).
(** [try { m } catch (e) { h(e) }] *)
Definition catch {A} (m : M A) (handler : string -> M A) : M A :=
  fun h s => match m h s with
             | (Thrown e, s') => handler e h s'
             | r => r
             end.
Definition getEnv : M Env := fun h s => (Ok h, s).

Notation "x <- m ;; k" := (bind m (fun x => k))
  (at level 61, m at next level, right associativity).
Notation "m ;;; k" := (bind m (fun _ => k))
  (at level 61, right associativity).

Definition emit (e : event) : M unit :=
  fun _ s => (Ok tt, mkSt (files s) (log s ++ [e])%list).

Fixpoint path_eqb (u v : path) : bool :=
  match u, v with
  | [], [] => true
  | x :: u', y :: v' => String.eqb x y && path_eqb u' v'
  | _, _ => false
  end.

Fixpoint lookup (u : path) (fs : list (path * string)) : option string :=
  match fs with
  | [] => None
  | (v, t) :: fs' => if path_eqb u v then Some t else lookup u fs'
  end.

Definition showErrorMessage (msg : string) : M unit := emit (EError msg).
Definition showInformationMessage (msg : string) : M unit := emit (EInfo msg).

(** [window.showInputBox({prompt, value})] *)
Definition showInputBox (p : prompt) (value : string) : M (option string) :=
  emit (EAsk p value);;; h <- getEnv;; ret (user h p).

(** [window.showQuickPick(items)]: the host only returns a listed item. *)
Definition pickResult (answer : option string) (items : list string) : option string :=
  match answer with
  | Some x => if existsb (String.eqb x) items then Some x else None
  | None => None
  end.

Definition showQuickPick (p : prompt) (items : list string) : M (option string) :=
  emit (EAsk p "");;; h <- getEnv;; ret (pickResult (user h p) items).

(** [workspace.fs.stat] and [workspace.fs.readFile] (contents already
    decoded as UTF-8 text). *)
Definition stat (u : path) : M unit :=
  fun _ s => match lookup u (files s) with
             | Some _ => (Ok tt, s)
             | None => (Thrown "EntryNotFound", s)
             end.

Definition readFile (u : path) : M string :=
  fun _ s => match lookup u (files s) with
             | Some t => (Ok t, s)
             | None => (Thrown "EntryNotFound", s)
             end.

Fixpoint store (u : path) (t : string) (fs : list (path * string))
  : list (path * string) :=
  match fs with
  | [] => [(u, t)]
  | (v, t') :: fs' => if path_eqb u v then (v, t) :: fs' else (v, t') :: store u t fs'
  end.

(** [workspace.fs.writeFile]: the attempt is logged; it raises on the URIs
    the host refuses. *)
Definition writeFile (k : wkind) (u : path) (t : string) : M unit :=
  fun h s =>
    let s1 := mkSt (files s) (log s ++ [EWrite k u t])%list in
    if writeFails h u then (Thrown "FileSystemError", s1)
    else (Ok tt, mkSt (store u t (files s)) (log s1)).

(** [workspace.fs.readDirectory] *)
Definition readDirectory (u : path) : M (list (string * bool)) :=
  h <- getEnv;;
  match readDirectoryResult h u with
  | Some l => ret l
  | None => throw "FileSystemError"
  end.

(** ** getOrCreateCopyrightNotice (identical in both revisions)

    extension.ts lines 78-117, part_000 lines 9-45. *)
Definition getOrCreateCopyrightNotice (workspaceFolder : path) : M string :=
  let copyrightUri := joinPath workspaceFolder ["COPYRIGHT.txt"] in
  catch
    (stat copyrightUri;;;
     data <- readFile copyrightUri;;
     ret data)
    (fun _ =>
       author <- showInputBox PAuthor "";;
       match nonEmpty author with
       | None =>
           showErrorMessage "Author name is required.";;;
           throw "Author name is required."
       | Some author =>
           projectName <- showInputBox PProject "";;
           match nonEmpty projectName with
           | None =>
               showErrorMessage "Project name is required.";;;
               throw "Project name is required."
           | Some projectName =>
               let notice := noticeText author projectName in
               writeFile WCopyright copyrightUri notice;;;
               ret notice
           end
       end).

(** The [try] block around the two generated-file writes (both branches of
    both revisions). *)
Definition writeClassFiles (headerUri : path) (headerContent : string)
    (sourceUri : path) (sourceContent : string) (info : string) : M unit :=
  catch
    (writeFile WHeader headerUri headerContent;;;
     writeFile WSource sourceUri sourceContent;;;
     showInformationMessage info)
    (fun e => showErrorMessage ("Error creating files: " ++ e)).

(** ** Revision src/src/extension.ts *)
Module Ext.

(** lines 7-12 *)
Definition getSubdirectories (dir : path) : M (list path) :=
  entries <- readDirectory dir;;
  ret (map (fun e => joinPath dir [fst e]) (filter (fun e => snd e) entries)).

(** lines 18-44 *)
Definition selectSubFolder (root : path) : M (option path) :=
  subdirs <- catch (l <- getSubdirectories root;; ret (Some l))
                   (fun e => showErrorMessage ("Failed to read subdirectories: " ++ e);;;
                             ret None);;
  match subdirs with
  | None => ret None
  | Some subdirs =>
      let items := ("(Use current folder)", root) :: map (fun u => (basename u, u)) subdirs in
      selected <- showQuickPick PSubfolder (map fst items);;
      match nonEmpty selected with
      | None => ret None
      | Some selected =>
          ret (option_map snd (find (fun it => String.eqb (fst it) selected) items))
      end
  end.

(** lines 51-72 *)
Definition selectBaseFolder : M (option path) :=
  h <- getEnv;;
  match workspaceFolders h with
  | [] => showErrorMessage "No workspace folder open.";;; ret None
  | [f] => selectSubFolder (snd f)
  | folders =>
      selectedName <- showQuickPick PWorkspace (map fst folders);;
      match nonEmpty selectedName with
      | None => ret None
      | Some selectedName =>
          match find (fun f => String.eqb (fst f) selectedName) folders with
          | Some f => selectSubFolder (snd f)
          | None => throw "TypeError: selectedFolder is undefined"
          end
      end
  end.

(** The header text (lines 200-210 and 257-267, the same text). *)
Definition headerContent (copyrightNotice openNamespaces closeNamespaces className : string)
  : string :=
  let hc := copyrightNotice ++ nl ++ nl in
  let hc := hc ++ "#pragma once" ++ nl ++ nl in
  let hc := if String.eqb openNamespaces "" then hc else hc ++ openNamespaces ++ nl ++ nl in
  let hc := hc ++ "class " ++ className ++ " {" ++ nl in
  let hc := hc ++ "public:" ++ nl ++ "    " ++ className ++ "();" ++ nl ++
                  "    ~" ++ className ++ "();" ++ nl ++ nl in
  let hc := hc ++ "private:" ++ nl ++ "    // Members..." ++ nl ++ "};" ++ nl ++ nl in
  if String.eqb closeNamespaces "" then hc else hc ++ closeNamespaces ++ nl.

(** The source text (lines 213-222 and 269-278, the same text). *)
Definition sourceContent
    (copyrightNotice openNamespaces closeNamespaces className includeDirective : string)
  : string :=
  let sc := copyrightNotice ++ nl ++ nl in
  let sc := sc ++ includeDirective ++ nl ++ nl in
  let sc := if String.eqb openNamespaces "" then sc else sc ++ openNamespaces ++ nl ++ nl in
  let sc := sc ++ className ++ "::" ++ className ++ "() {" ++ nl ++
                  "    // Constructor implementation" ++ nl ++ "}" ++ nl ++ nl in
  let sc := sc ++ className ++ "::~" ++ className ++ "() {" ++ nl ++
                  "    // Destructor implementation" ++ nl ++ "}" ++ nl ++ nl in
  if String.eqb closeNamespaces "" then sc else sc ++ closeNamespaces ++ nl.

(** [/^include[\/\\]/.test(s)] *)
Definition startsWithIncludeSep (s : string) : bool :=
  String.prefix "include/" s || String.prefix "include\" s.

(** lines 175-178: the value pre-filled in the source-subfolder prompt. *)
Definition defaultSourceSubfolder (headerSubfolder : string) : string :=
  let r :=
    if startsWithIncludeSep headerSubfolder then
      "src/" ++ substring 8 (String.length headerSubfolder - 8) headerSubfolder
    else if String.prefix "include" headerSubfolder then
      "src/" ++ substring 7 (String.length headerSubfolder - 7) headerSubfolder
    else headerSubfolder in
  if String.eqb r headerSubfolder then "src" else r.

(** lines 190-197 *)
Definition includeDirective (headerSubfolder className : string) : string :=
  let directiveFolder :=
    if startsWithIncludeSep headerSubfolder then
      substring 8 (String.length headerSubfolder - 8) headerSubfolder
    else headerSubfolder in
  if String.eqb directiveFolder "" then includeLine className
  else includeLine (directiveFolder ++ "/" ++ className).

(** lines 165-244: "Separate Folders".  The absolute paths of lines
    187-188 are computed but never used. *)
Definition separateFolders (baseFolder : path)
    (copyrightNotice className openNamespaces closeNamespaces : string) : M unit :=
  headerFolderInput <- showInputBox PHeaderFolder "include";;
  match nonEmpty headerFolderInput with
  | None => ret tt
  | Some headerFolderInput =>
      let headerSubfolder := trim headerFolderInput in
      sourceFolderInput <- showInputBox PSourceFolder (defaultSourceSubfolder headerSubfolder);;
      match nonEmpty sourceFolderInput with
      | None => ret tt
      | Some sourceFolderInput =>
          let sourceSubfolder := trim sourceFolderInput in
          let directive := includeDirective headerSubfolder className in
          let hc := headerContent copyrightNotice openNamespaces closeNamespaces className in
          let sc := sourceContent copyrightNotice openNamespaces closeNamespaces className directive in
          let headerUri := joinPath baseFolder (app (split_char "/" headerSubfolder) [className ++ ".hpp"]) in
          let sourceUri := joinPath baseFolder (app (split_char "/" sourceSubfolder) [className ++ ".cpp"]) in
          writeClassFiles headerUri hc sourceUri sc
            ("Created " ++ className ++ ".hpp in " ++ dq ++ headerSubfolder ++ dq ++
             " and " ++ className ++ ".cpp in " ++ dq ++ sourceSubfolder ++ dq)
      end
  end.

(** lines 245-291: "Same Folder". *)
Definition sameFolder (baseFolder : path)
    (copyrightNotice className openNamespaces closeNamespaces : string) : M unit :=
  folderInput <- showInputBox PTargetFolder "";;
  let targetSubfolder :=
    match nonEmpty folderInput with Some f => trim f | None => "" end in
  let targetUri :=
    if String.eqb targetSubfolder "" then baseFolder
    else joinPath baseFolder (split_char "/" targetSubfolder) in
  let directive := includeLine className in
  let hc := headerContent copyrightNotice openNamespaces closeNamespaces className in
  let sc := sourceContent copyrightNotice openNamespaces closeNamespaces className directive in
  writeClassFiles (joinPath targetUri [className ++ ".hpp"]) hc
                  (joinPath targetUri [className ++ ".cpp"]) sc
    ("Created " ++ className ++ ".hpp and " ++ className ++ ".cpp in " ++ dq ++
     (if String.eqb targetSubfolder "" then "base folder" else targetSubfolder) ++ dq).

(** The command handler, lines 120-293. *)
Definition createClassFiles : M unit :=
  baseFolder <- selectBaseFolder;;
  match baseFolder with
  | None => ret tt
  | Some baseFolder =>
      copyright <- catch (n <- getOrCreateCopyrightNotice baseFolder;; ret (Some n))
                         (fun e => showErrorMessage e;;; ret None);;
      match copyright with
      | None => ret tt
      | Some copyrightNotice =>
          className <- showInputBox PClassName "";;
          match nonEmpty className with
          | None => showErrorMessage "Class name is required.";;; ret tt
          | Some className =>
              nsInput <- showInputBox PNamespace "";;
              let '(openNamespaces, closeNamespaces) := namespaceBlocks nsInput in
              placementOption <- showQuickPick PPlacement ["Same Folder"; "Separate Folders"];;
              match nonEmpty placementOption with
              | None => ret tt
              | Some placementOption =>
                  if String.eqb placementOption "Separate Folders" then
                    separateFolders baseFolder copyrightNotice className
                                    openNamespaces closeNamespaces
                  else
                    sameFolder baseFolder copyrightNotice className
                               openNamespaces closeNamespaces
              end
          end
      end
  end.

End Ext.

(** ** Revision src/unnamed/part_000 (relative include path) *)
Module Rel.

(** The header text (lines 124-134 and 176-186, the same text). *)
Definition headerContent (copyrightNotice openNamespaces closeNamespaces className : string)
  : string :=
  let hc := copyrightNotice ++ nl in
  let hc := if String.eqb openNamespaces "" then hc else hc ++ openNamespaces ++ nl ++ nl in
  let hc := hc ++ "#pragma once" ++ nl ++ nl in
  let hc := hc ++ "class " ++ className ++ " {" ++ nl in
  let hc := hc ++ "public:" ++ nl ++ "    " ++ className ++ "();" ++ nl ++
                  "    ~" ++ className ++ "();" ++ nl ++ nl in
  let hc := hc ++ "private:" ++ nl ++ "    // Members..." ++ nl ++ "};" ++ nl ++ nl in
  if String.eqb closeNamespaces "" then hc else hc ++ closeNamespaces ++ nl.

(** The source text (lines 137-146 and 189-198, the same text). *)
Definition sourceContent
    (copyrightNotice openNamespaces closeNamespaces className includeDirective : string)
  : string :=
  let sc := copyrightNotice ++ nl in
  let sc := sc ++ includeDirective ++ nl ++ nl in
  let sc := if String.eqb openNamespaces "" then sc else sc ++ openNamespaces ++ nl ++ nl in
  let sc := sc ++ className ++ "::" ++ className ++ "() {" ++ nl ++
                  "    // Constructor implementation" ++ nl ++ "}" ++ nl ++ nl in
  let sc := sc ++ className ++ "::~" ++ className ++ "() {" ++ nl ++
                  "    // Destructor implementation" ++ nl ++ "}" ++ nl ++ nl in
  if String.eqb closeNamespaces "" then sc else sc ++ closeNamespaces ++ nl.

(** lines 113-121; [path.sep] is "/" (POSIX). *)
Definition includeDirective (wsPath headerFolder sourceFolder className : string) : string :=
  let headerFolderPath := pathJoin wsPath headerFolder in
  let sourceFolderPath := pathJoin wsPath sourceFolder in
  let relativeHeaderPath := pathRelative sourceFolderPath headerFolderPath in
  let relativeHeaderPath := join "/" (split_char "/" relativeHeaderPath) in
  if String.eqb relativeHeaderPath "" then includeLine className
  else includeLine (relativeHeaderPath ++ "/" ++ className).

(** lines 100-158: "Place header and source in separate folders". *)
Definition separateFolders (workspaceFolder : path)
    (copyrightNotice className openNamespaces closeNamespaces : string) : M unit :=
  let wsPath := fsPath workspaceFolder in
  headerFolderInput <- showInputBox PHeaderFolder "include";;
  sourceFolderInput <- showInputBox PSourceFolder "src";;
  let headerFolder :=
    match nonEmpty headerFolderInput with Some x => trim x | None => "include" end in
  let sourceFolder :=
    match nonEmpty sourceFolderInput with Some x => trim x | None => "src" end in
  let directive := includeDirective wsPath headerFolder sourceFolder className in
  let hc := headerContent copyrightNotice openNamespaces closeNamespaces className in
  let sc := sourceContent copyrightNotice openNamespaces closeNamespaces className directive in
  writeClassFiles (joinPath workspaceFolder [headerFolder; className ++ ".hpp"]) hc
                  (joinPath workspaceFolder [sourceFolder; className ++ ".cpp"]) sc
    ("Created " ++ className ++ ".hpp in " ++ dq ++ headerFolder ++ dq ++
     " and " ++ className ++ ".cpp in " ++ dq ++ sourceFolder ++ dq).

(** lines 159-211: "Place files in the same folder". *)
Definition sameFolder (workspaceFolder : path)
    (copyrightNotice className openNamespaces closeNamespaces : string) : M unit :=
  folderInput <- showInputBox PTargetFolder "";;
  let targetFolder :=
    match nonEmpty folderInput with Some f => trim f | None => "" end in
  let targetFolderUri :=
    if String.eqb targetFolder "" then workspaceFolder
    else joinPath workspaceFolder [targetFolder] in
  let directive := includeLine className in
  let hc := headerContent copyrightNotice openNamespaces closeNamespaces className in
  let sc := sourceContent copyrightNotice openNamespaces closeNamespaces className directive in
  writeClassFiles (joinPath targetFolderUri [className ++ ".hpp"]) hc
                  (joinPath targetFolderUri [className ++ ".cpp"]) sc
    ("Created " ++ className ++ ".hpp and " ++ className ++ ".cpp in " ++ dq ++
     (if String.eqb targetFolder "" then "workspace root" else targetFolder) ++ dq).

(** The command handler, lines 48-212. *)
Definition createClassFiles : M unit :=
  h <- getEnv;;
  match workspaceFolders h with
  | [] => showErrorMessage "No workspace folder open.";;; ret tt
  | f :: _ =>
      let workspaceFolder := snd f in
      copyright <- catch (n <- getOrCreateCopyrightNotice workspaceFolder;; ret (Some n))
                         (fun _ => ret None);;
      match copyright with
      | None => ret tt
      | Some copyrightNotice =>
          className <- showInputBox PClassName "";;
          match nonEmpty className with
          | None => showErrorMessage "Class name is required.";;; ret tt
          | Some className =>
              nsInput <- showInputBox PNamespace "";;
              let '(openNamespaces, closeNamespaces) := namespaceBlocks nsInput in
              placementOption <- showQuickPick PPlacement
                ["Place files in the same folder"; "Place header and source in separate folders"];;
              match nonEmpty placementOption with
              | None => ret tt
              | Some placementOption =>
                  if String.eqb placementOption "Place header and source in separate folders" then
                    separateFolders workspaceFolder copyrightNotice className
                                    openNamespaces closeNamespaces
                  else
                    sameFolder workspaceFolder copyrightNotice className
                               openNamespaces closeNamespaces
              end
          end
      end
  end.

End Rel.

(** ** Reasoning about the trace of an invocation *)

(** Events that are not a write of a generated file. *)
Definition notGen (e : event) : Prop :=
  match e with
  | EWrite WHeader _ _ | EWrite WSource _ _ => False
  | _ => True
  end.

(** Every source-file write carries the text [t]. *)
Definition sourceTextIs (t : string) (e : event) : Prop :=
  match e with
  | EWrite WSource _ t' => t' = t
  | _ => True
  end.


Definition notWrite (e : event) : Prop :=
  match e with EWrite _ _ _ => False | _ => True end.

(** ** Texts and hosts used by the statements *)

(** The class block of the header template (the same in both revisions). *)
Definition classBlock (className : string) : string :=
  "class " ++ className ++ " {" ++ nl ++
  "public:" ++ nl ++ "    " ++ className ++ "();" ++ nl ++
  "    ~" ++ className ++ "();" ++ nl ++ nl ++
  "private:" ++ nl ++ "    // Members..." ++ nl ++ "};" ++ nl ++ nl.

(** The class block after its leading keyword "class", cut at the single
    characters that surround each occurrence of the class name. *)
Definition classTail (className : string) : string :=
  String " "%char (className ++ String " "%char (("{" ++ nl ++ "public:" ++ nl ++ "   ")
    ++ String " "%char (className ++ String "("%char ((");" ++ nl ++ "    ")
    ++ String "~"%char (className ++ String "("%char
         (");" ++ nl ++ nl ++ "private:" ++ nl ++ "    // Members..." ++ nl ++
          "};" ++ nl ++ nl)))))).

Fixpoint charIn (c : ascii) (s : string) : bool :=
  match s with
  | EmptyString => false
  | String d s' => Ascii.eqb c d || charIn c s'
  end.

Fixpoint allWs (s : string) : bool :=
  match s with
  | EmptyString => true
  | String c s' => is_ws c && allWs s'
  end.

(** A workspace "nebula" with a COPYRIGHT.txt, subfolders include and src. *)
Definition demoRoot : path := ["home"; "dev"; "nebula"].

Definition demoState : St :=
  mkSt [(joinPath demoRoot ["COPYRIGHT.txt"], noticeText "Jane" "Nebula")] [].

(** The user names the class Foo, dismisses the namespace prompt and picks
    [placement]; subfolders: include and src. *)
Definition demoAnswers (placement : string) (p : prompt) : option string :=
  match p with
  | PSubfolder => Some "(Use current folder)"
  | PClassName => Some "Foo"
  | PPlacement => Some placement
  | PHeaderFolder => Some "include"
  | PSourceFolder => Some "src"
  | _ => None
  end.

Definition demoHost (answers : prompt -> option string) (fails : path -> bool) : Env :=
  mkEnv answers [("nebula", demoRoot)]
        (fun _ => Some [("include", true); ("src", true)]) fails.

Definition noWriteFails (_ : path) : bool := false.

Definition headerWriteFails (u : path) : bool :=
  path_eqb u (joinPath demoRoot ["include"; "Foo.hpp"]).

(** [Hoare h P R m]: running [m] under host [h] appends only events
    satisfying [P] to the log, and a normal result satisfies [R]. *)
Definition Hoare {A} (h : Env) (P : event -> Prop) (R : A -> Prop) (m : M A) : Prop :=
  forall s, exists new,
    log (snd (m h s)) = (log s ++ new)%list /\ Forall P new /\
    match fst (m h s) with Ok a => R a | Thrown _ => True end.



Definition writeKindEqb (k k' : wkind) : bool :=
  match k, k' with
  | WCopyright, WCopyright | WHeader, WHeader | WSource, WSource => true
  | _, _ => false
  end.

(** Number of write attempts of a given call site in a log. *)
Definition countWrites (k : wkind) (l : list event) : nat :=
  length (filter (fun e => match e with EWrite k' _ _ => writeKindEqb k k' | _ => false end) l).


Definition plainSeg (x : string) : bool :=
  keepSeg x && negb (String.eqb x "..") && negb (charIn "/" x).

Definition sameHost (h h' : Env) : Prop :=
  user h = user h' /\ readDirectoryResult h = readDirectoryResult h' /\ writeFails h = writeFails h'.

Definition Indep {A} (m : M A) : Prop := forall h h' s, sameHost h h' -> m h s = m h' s.

(** Hosts for the further properties. *)
Definition noAnswers (_ : prompt) : option string := None.

Definition emptyHost : Env := mkEnv noAnswers [] (fun _ => None) noWriteFails.

Definition unreadableHost : Env :=
  mkEnv noAnswers [("nebula", demoRoot)] (fun _ => None) noWriteFails.

(** A fresh workspace: the user names the author and the project. *)
Definition newAuthorAnswers (p : prompt) : option string :=
  match p with
  | PAuthor => Some "Jane"
  | PProject => Some "Nebula"
  | _ => None
  end.

(** The user picks [sub] in the subfolder prompt. *)
Definition pickAnswers (sub : string) (p : prompt) : option string :=
  match p with
  | PSubfolder => Some sub
  | _ => None
  end.

(** A listing with a subdirectory named like the reserved label and a file. *)
Definition mixedEntries : list (string * bool) :=
  [("(Use current folder)", true); ("include", true); ("src", true); ("README.md", false)].

Definition listingHost (answers : prompt -> option string) : Env :=
  mkEnv answers [("nebula", demoRoot)] (fun _ => Some mixedEntries) noWriteFails.

(** The separate-folder answers [hf] and [sf]. *)
Definition splitAnswers (hf sf : string) (p : prompt) : option string :=
  match p with
  | PHeaderFolder => Some hf
  | PSourceFolder => Some sf
  | _ => None
  end.

(** Two workspace folders, "nebula" first. *)
Definition twoRootHost (answers : prompt -> option string) : Env :=
  mkEnv answers [("nebula", demoRoot); ("other", ["srv"; "other"])]
        (fun _ => Some [("include", true); ("src", true)]) noWriteFails.

(** The relative-path revision's same-folder answers. *)
Definition relSameAnswers (p : prompt) : option string :=
  match p with
  | PClassName => Some "Foo"
  | PPlacement => Some "Place files in the same folder"
  | _ => None
  end.

(** [m] leaves the files as they are. *)
Definition KeepsFiles {A} (m : M A) : Prop := forall h s, files (snd (m h s)) = files s.

(** The relative-path revision's split placement with every optional
    prompt dismissed. *)
Definition relSplitAnswers (p : prompt) : option string :=
  match p with
  | PClassName => Some "Foo"
  | PPlacement => Some "Place header and source in separate folders"
  | _ => None
  end.

Section Trace.
Variable h : Env.


Lemma hoare_ret {A} P (R : A -> Prop) a : R a -> Hoare h P R (ret a).
Proof. intros HR s. exists []. rewrite app_nil_r. auto. Qed.

Lemma hoare_throw {A} P (R : A -> Prop) msg : Hoare h P R (throw msg).
Proof. intros s. exists []. rewrite app_nil_r. simpl. auto. Qed.

Lemma hoare_emit P (R : unit -> Prop) e : P e -> R tt -> Hoare h P R (emit e).
Proof. intros HP HR s. exists [e]. simpl. auto. Qed.

Lemma hoare_bind {A B} P (R1 : A -> Prop) (R2 : B -> Prop) m k :
  Hoare h P R1 m -> (forall a, R1 a -> Hoare h P R2 (k a)) -> Hoare h P R2 (bind m k).
Proof.
  intros Hm Hk s. unfold bind.
  destruct (Hm s) as [n1 [E1 [F1 R1a]]].
  destruct (m h s) as [[a|e] s'] eqn:Em; simpl in *.
  - destruct (Hk a R1a s') as [n2 [E2 [F2 R2b]]].
    exists (n1 ++ n2)%list. rewrite E2, E1, app_assoc.
    split; [reflexivity | split; [apply Forall_app; auto | exact R2b]].
  - exists n1. auto.
Qed.

Lemma hoare_bind_any {A B} P (R2 : B -> Prop) (m : M A) k :
  Hoare h P (fun _ => True) m -> (forall a, Hoare h P R2 (k a)) -> Hoare h P R2 (bind m k).
Proof. intros Hm Hk. apply (hoare_bind P (fun _ => True)); auto. Qed.

Lemma hoare_catch {A} P (R : A -> Prop) m handler :
  Hoare h P R m -> (forall e, Hoare h P R (handler e)) -> Hoare h P R (catch m handler).
Proof.
  intros Hm Hh s. unfold catch.
  destruct (Hm s) as [n1 [E1 [F1 R1a]]].
  destruct (m h s) as [[a|e] s'] eqn:Em; simpl in *.
  - exists n1. auto.
  - destruct (Hh e s') as [n2 [E2 [F2 R2b]]].
    exists (n1 ++ n2)%list. rewrite E2, E1, app_assoc.
    split; [reflexivity | split; [apply Forall_app; auto | exact R2b]].
Qed.

Lemma hoare_getEnv_bind {B} P (R : B -> Prop) k :
  Hoare h P R (k h) -> Hoare h P R (bind getEnv k).
Proof. intros Hk s. exact (Hk s). Qed.

Lemma hoare_getEnv P (R : Env -> Prop) : R h -> Hoare h P R getEnv.
Proof. intros HR s. exists []. rewrite app_nil_r. simpl. auto. Qed.

Lemma hoare_ask_bind {B} P (R : B -> Prop) p v k :
  P (EAsk p v) -> Hoare h P R (k (user h p)) -> Hoare h P R (bind (showInputBox p v) k).
Proof.
  intros HP Hk s. unfold bind, showInputBox, bind, emit, getEnv, ret; simpl.
  destruct (Hk (mkSt (files s) (log s ++ [EAsk p v])%list)) as [n [E [F Rb]]].
  exists (EAsk p v :: n). simpl in E. rewrite E, <- app_assoc. auto.
Qed.

Lemma hoare_pick_bind {B} P (R : B -> Prop) p items k :
  P (EAsk p "") -> Hoare h P R (k (pickResult (user h p) items)) ->
  Hoare h P R (bind (showQuickPick p items) k).
Proof.
  intros HP Hk s. unfold bind, showQuickPick, bind, emit, getEnv, ret; simpl.
  destruct (Hk (mkSt (files s) (log s ++ [EAsk p ""])%list)) as [n [E [F Rb]]].
  exists (EAsk p "" :: n). simpl in E. rewrite E, <- app_assoc. auto.
Qed.

Lemma hoare_stat P (R : unit -> Prop) u : R tt -> Hoare h P R (stat u).
Proof.
  intros HR s. exists []. rewrite app_nil_r. unfold stat.
  destruct (lookup u (files s)); simpl; auto.
Qed.

Lemma hoare_readFile P u : Hoare h P (fun _ => True) (readFile u).
Proof.
  intros s. exists []. rewrite app_nil_r. unfold readFile.
  destruct (lookup u (files s)); simpl; auto.
Qed.

Lemma hoare_writeFile P (R : unit -> Prop) k u t :
  P (EWrite k u t) -> R tt -> Hoare h P R (writeFile k u t).
Proof.
  intros HP HR s. exists [EWrite k u t]. unfold writeFile.
  destruct (writeFails h u); simpl; auto.
Qed.





End Trace.

Ltac hoare_step :=
  match goal with
  | H : user ?h ?p = _ |- context [user ?h ?p] => rewrite H
  | H : nonEmpty (user ?h ?p) = None |- context [nonEmpty (user ?h ?p)] => rewrite H
  | |- Hoare _ _ _ ((fun _ => _) _) => cbv beta
  | |- Hoare _ _ _ (let _ := _ in _) => cbv zeta
  | |- Hoare _ _ _ (bind (showInputBox _ _) _) =>
      apply hoare_ask_bind; [simpl; tauto | ]
  | |- Hoare _ _ _ (bind (showQuickPick _ _) _) =>
      apply hoare_pick_bind; [simpl; tauto | ]
  | |- Hoare _ _ _ (bind getEnv _) => apply hoare_getEnv_bind
  | |- Hoare _ _ _ getEnv => apply hoare_getEnv; simpl; auto
  | |- Hoare _ _ _ (bind _ _) => apply hoare_bind_any; [ | intro ]
  | |- Hoare _ _ _ (catch _ _) => apply hoare_catch; [ | intro ]
  | |- Hoare _ _ _ (ret _) => apply hoare_ret; simpl; auto
  | |- Hoare _ _ _ (throw _) => apply hoare_throw
  | |- Hoare _ _ _ (emit _) => apply hoare_emit; simpl; auto
  | |- Hoare _ _ _ (showInputBox _ _) => unfold showInputBox
  | |- Hoare _ _ _ (showQuickPick _ _) => unfold showQuickPick
  | |- Hoare _ _ _ (showErrorMessage _) => apply hoare_emit; simpl; auto
  | |- Hoare _ _ _ (showInformationMessage _) => apply hoare_emit; simpl; auto
  | |- Hoare _ _ _ (stat _) => apply hoare_stat; simpl; auto
  | |- Hoare _ _ _ (readFile _) => apply hoare_readFile
  | |- Hoare _ _ _ (writeFile _ _ _) => apply hoare_writeFile; simpl; auto
  | |- Hoare _ _ _ (readDirectory _) => unfold readDirectory
  | |- Hoare _ _ _ (match ?x with _ => _ end) =>
      let E := fresh "E" in
      destruct x eqn:E; try discriminate E; try (injection E; intro; subst)
  | |- Hoare _ _ _ (getOrCreateCopyrightNotice _) => unfold getOrCreateCopyrightNotice
  | |- Hoare _ _ _ (writeClassFiles _ _ _ _ _) => unfold writeClassFiles
  | |- Hoare _ _ _ Ext.selectBaseFolder => unfold Ext.selectBaseFolder
  | |- Hoare _ _ _ (Ext.selectSubFolder _) => unfold Ext.selectSubFolder
  | |- Hoare _ _ _ (Ext.getSubdirectories _) => unfold Ext.getSubdirectories
  | |- Hoare _ _ _ Ext.createClassFiles => unfold Ext.createClassFiles
  | |- Hoare _ _ _ (Ext.separateFolders _ _ _ _ _) => unfold Ext.separateFolders
  | |- Hoare _ _ _ (Ext.sameFolder _ _ _ _ _) => unfold Ext.sameFolder
  | |- Hoare _ _ _ Rel.createClassFiles => unfold Rel.createClassFiles
  | |- Hoare _ _ _ (Rel.separateFolders _ _ _ _ _) => unfold Rel.separateFolders
  | |- Hoare _ _ _ (Rel.sameFolder _ _ _ _ _) => unfold Rel.sameFolder
  end.

Ltac hoare := repeat hoare_step.




(** ** Cancellation lemmas *)

Lemma ext_selectSubFolder_dismissed h root :
  user h PSubfolder = None ->
  Hoare h notGen (fun r => r = None) (Ext.selectSubFolder root).
Proof. intros H. hoare. Qed.












(** ** The claims *)

(** C1 (split placement, headerFolder "include", sourceFolder "src",
    className "Foo"): the path.relative revision writes
    [#include "../include/Foo.hpp"], but extension.ts writes
    [#include "include/Foo.hpp"], neither of the two announced values: its
    prefix test requires a separator after "include", although the comment
    says the "include" prefix is removed and the sibling default-source
    rule of lines 175-178 accepts a bare "include". *)
Theorem C1_split_include_directive :
  Rel.includeDirective (fsPath demoRoot) "include" "src" "Foo" = includeLine "../include/Foo" /\
  Ext.includeDirective "include" "Foo" = includeLine "include/Foo" /\
  Ext.includeDirective "include/" "Foo" = includeLine "Foo" /\
  Ext.defaultSourceSubfolder "include" = "src/".
Proof. vm_compute. repeat split. Qed.

(** C2 (counterexample): when the header write fails, the source write is
    never attempted. *)
Lemma C2_header_failure_skips_source :
  let r := Ext.createClassFiles (demoHost (demoAnswers "Separate Folders") headerWriteFails)
                                demoState in
  countWrites WHeader (log (snd r)) = 1 /\ countWrites WSource (log (snd r)) = 0.
Proof. vm_compute. split; reflexivity. Qed.

(** C2 (amended): both writes sit in one try block.  If the header write
    fails, the source write is not attempted; if the header write succeeds
    and the source write fails, the header file stays written; either
    failure shows one error message. *)
Theorem C2_writes_share_one_try_block h s hU hc sU sc info :
  writeClassFiles hU hc sU sc info h s =
  if writeFails h hU then
    (Ok tt, mkSt (files s)
                 (log s ++ [EWrite WHeader hU hc;
                            EError ("Error creating files: " ++ "FileSystemError")])%list)
  else if writeFails h sU then
    (Ok tt, mkSt (store hU hc (files s))
                 (log s ++ [EWrite WHeader hU hc; EWrite WSource sU sc;
                            EError ("Error creating files: " ++ "FileSystemError")])%list)
  else
    (Ok tt, mkSt (store sU sc (store hU hc (files s)))
                 (log s ++ [EWrite WHeader hU hc; EWrite WSource sU sc; EInfo info])%list).
Proof.
  unfold writeClassFiles, catch, bind, writeFile, showInformationMessage,
    showErrorMessage, emit.
  destruct (writeFails h hU); simpl.
  - rewrite <- app_assoc. reflexivity.
  - destruct (writeFails h sU); simpl; rewrite <- !app_assoc; reflexivity.
Qed.


(** ** Whitespace and "::" splitting *)

Lemma trim_right_empty_allWs x : trim_right x = "" -> allWs x = true.
Proof.
  induction x as [|c x IH]; simpl; [reflexivity | ].
  destruct (is_ws c) eqn:Ec; simpl.
  - destruct (trim_right x =? "") eqn:Er; [ | discriminate].
    intros _. apply String.eqb_eq in Er. exact (IH Er).
  - discriminate.
Qed.

Lemma trim_left_shape x :
  trim_left x = "" \/ exists c r, trim_left x = String c r /\ is_ws c = false.
Proof.
  induction x as [|c x IH]; simpl; [left; reflexivity | ].
  destruct (is_ws c) eqn:Ec; [exact IH | right; exists c, x; auto].
Qed.

Lemma trim_left_empty_allWs x : trim_left x = "" -> allWs x = true.
Proof.
  induction x as [|c x IH]; simpl; [reflexivity | ].
  destruct (is_ws c); simpl; [exact IH | discriminate].
Qed.

Lemma trim_empty_allWs x : trim x = "" -> allWs x = true.
Proof.
  unfold trim. intros H.
  destruct (trim_left_shape x) as [E | [c [r [E Hc]]]].
  - apply trim_left_empty_allWs, E.
  - rewrite E in H. simpl in H. rewrite Hc in H. discriminate.
Qed.

Lemma allWs_trim x : allWs x = true -> trim x = "".
Proof.
  unfold trim. intros H.
  assert (trim_left x = "") as ->; [ | reflexivity].
  induction x as [|c x IH]; simpl in *; [reflexivity | ].
  apply andb_prop in H as [Hc Hx]. rewrite Hc. exact (IH Hx).
Qed.

Lemma allWs_split_dc_go x : allWs x = true -> split_dc_go x = (x, []).
Proof.
  induction x as [|c x IH]; simpl; [reflexivity | ].
  intros H. apply andb_prop in H as [Hc Hx].
  assert (Ascii.eqb c ":" = false) as ->.
  { destruct (Ascii.eqb c ":") eqn:E; [ | reflexivity].
    apply Ascii.eqb_eq in E. subst c. discriminate Hc. }
  rewrite (IH Hx). reflexivity.
Qed.

Lemma spec_namespacePath_blank ns : trim ns = "" -> spec_namespacePath ns = [].
Proof.
  intros H. unfold spec_namespacePath, split_dc.
  rewrite (allWs_split_dc_go ns (trim_empty_allWs ns H)). simpl.
  rewrite H. reflexivity.
Qed.

(** The code's namespace wrapping is the spec's: the guard on a blank input
    changes nothing. *)
Lemma namespaceBlocks_spec ns :
  namespaceBlocks (Some ns) =
  (spec_openNamespaces (spec_namespacePath ns), spec_closeNamespaces (spec_namespacePath ns)).
Proof.
  unfold namespaceBlocks.
  destruct (negb (ns =? "") && negb (trim ns =? "")) eqn:G.
  - fold (spec_namespacePath ns).
    destruct (spec_namespacePath ns); reflexivity.
  - assert (trim ns = "") as Ht.
    { apply andb_false_iff in G as [G | G]; apply negb_false_iff, String.eqb_eq in G.
      - subst ns. reflexivity.
      - exact G. }
    rewrite (spec_namespacePath_blank ns Ht). reflexivity.
Qed.

(** C4: the namespace wrapping splits on "::", trims every segment and drops
    the empty ones; "a::b::c" opens a, b, c in that order and closes three
    braces; "", "::" and a dismissed prompt open and close nothing. *)
Theorem C4_namespace_wrapping :
  (forall ns, namespaceBlocks (Some ns) =
              (spec_openNamespaces (spec_namespacePath ns),
               spec_closeNamespaces (spec_namespacePath ns))) /\
  spec_namespacePath "a::b::c" = ["a"; "b"; "c"] /\
  namespaceBlocks (Some "a::b::c") =
    ("namespace a {" ++ nl ++ "namespace b {" ++ nl ++ "namespace c {",
     "}" ++ nl ++ "}" ++ nl ++ "}") /\
  spec_namespacePath "" = [] /\ spec_namespacePath "::" = [] /\
  namespaceBlocks (Some "") = ("", "") /\ namespaceBlocks (Some "::") = ("", "") /\
  namespaceBlocks None = ("", "").
Proof.
  split; [exact namespaceBlocks_spec | ].
  vm_compute. repeat split.
Qed.

(** C5: when COPYRIGHT.txt exists, getOrCreateCopyrightNotice returns its
    text and leaves the state (files and log) untouched; two calls return
    the same text and write nothing. *)
Theorem C5_existing_notice_passthrough h s dir t :
  lookup (joinPath dir ["COPYRIGHT.txt"]) (files s) = Some t ->
  getOrCreateCopyrightNotice dir h s = (Ok t, s) /\
  (a <- getOrCreateCopyrightNotice dir;; b <- getOrCreateCopyrightNotice dir;; ret (a, b)) h s
  = (Ok (t, t), s).
Proof.
  intros Hf.
  assert (E : getOrCreateCopyrightNotice dir h s = (Ok t, s)).
  { unfold getOrCreateCopyrightNotice, catch, bind, stat, readFile, ret.
    cbv beta zeta. rewrite Hf. cbv beta iota. rewrite Hf. reflexivity. }
  split; [exact E | ].
  unfold bind at 1. rewrite E. unfold bind. rewrite E. reflexivity.
Qed.

Lemma C5_existing_notice_passthrough_witness :
  lookup (joinPath demoRoot ["COPYRIGHT.txt"]) (files demoState) = Some (noticeText "Jane" "Nebula") /\
  getOrCreateCopyrightNotice demoRoot (demoHost (fun _ => None) noWriteFails) demoState
  = (Ok (noticeText "Jane" "Nebula"), demoState).
Proof.
  split; [reflexivity | ].
  apply (proj1 (C5_existing_notice_passthrough (demoHost (fun _ => None) noWriteFails)
                  demoState demoRoot (noticeText "Jane" "Nebula") eq_refl)).
Defined.

(** C6: when COPYRIGHT.txt is absent and the author or the project name is
    dismissed or empty, getOrCreateCopyrightNotice raises, the files are
    unchanged and no write is attempted. *)
Theorem C6_missing_input_no_write h s dir :
  lookup (joinPath dir ["COPYRIGHT.txt"]) (files s) = None ->
  nonEmpty (user h PAuthor) = None \/ nonEmpty (user h PProject) = None ->
  exists msg new,
    getOrCreateCopyrightNotice dir h s = (Thrown msg, mkSt (files s) (log s ++ new)%list) /\
    Forall notWrite new.
Proof.
  intros Hf Hin.
  unfold getOrCreateCopyrightNotice, catch, bind, stat. cbv beta zeta. rewrite Hf.
  unfold showInputBox, bind, emit, getEnv, ret, showErrorMessage, throw; simpl.
  destruct (nonEmpty (user h PAuthor)) as [a|] eqn:Ea.
  - destruct Hin as [Hin | Hin]; [discriminate | ].
    rewrite Hin. simpl.
    exists "Project name is required.",
      [EAsk PAuthor ""; EAsk PProject ""; EError "Project name is required."].
    rewrite <- !app_assoc. split; [reflexivity | repeat constructor].
  - exists "Author name is required.", [EAsk PAuthor ""; EError "Author name is required."].
    simpl. rewrite <- !app_assoc. split; [reflexivity | repeat constructor].
Qed.

Lemma C6_missing_input_no_write_witness :
  lookup (joinPath demoRoot ["COPYRIGHT.txt"]) (files (mkSt [] [])) = None /\
  exists msg new,
    getOrCreateCopyrightNotice demoRoot (demoHost (fun _ => None) noWriteFails) (mkSt [] [])
    = (Thrown msg, mkSt [] ([] ++ new)%list) /\ Forall notWrite new.
Proof.
  split; [reflexivity | ].
  apply (C6_missing_input_no_write (demoHost (fun _ => None) noWriteFails) (mkSt [] []) demoRoot
           eq_refl (or_introl eq_refl)).
Defined.

(** ** Substrings across separators *)

Lemma string_app_assoc (a b c : string) : a ++ (b ++ c) = (a ++ b) ++ c.
Proof. induction a as [|x a IH]; simpl; [reflexivity | now rewrite IH]. Qed.

Lemma prefix_app p x z : String.prefix p x = true -> String.prefix p (x ++ z) = true.
Proof.
  revert x. induction p as [|a p IH]; intros x H; [destruct (x ++ z); reflexivity | ].
  destruct x as [|b x]; simpl in *; [discriminate | ].
  destruct (ascii_dec a b); [apply IH, H | discriminate].
Qed.

Lemma prefix_sep p x ch y :
  charIn ch p = false -> String.prefix p (x ++ String ch y) = true -> String.prefix p x = true.
Proof.
  revert x. induction p as [|a p IH]; intros x Hc H; [destruct x; reflexivity | ].
  simpl in Hc. apply orb_false_iff in Hc as [Ha Hc].
  destruct x as [|b x]; simpl in H.
  - destruct (ascii_dec a ch); [ | discriminate].
    subst a. rewrite Ascii.eqb_refl in Ha. discriminate.
  - simpl. destruct (ascii_dec a b); [ | discriminate]. exact (IH x Hc H).
Qed.

Lemma containsb_empty p : String.eqb p "" = false -> containsb p "" = false.
Proof. destruct p; [discriminate | reflexivity]. Qed.

Lemma containsb_sep p x ch y :
  String.eqb p "" = false -> charIn ch p = false ->
  containsb p (x ++ String ch y) = containsb p x || containsb p y.
Proof.
  intros Hp Hc. induction x as [|b x IH].
  - change (String.prefix p (String ch y) || containsb p y =
            containsb p "" || containsb p y).
    rewrite (containsb_empty p Hp), Bool.orb_false_l.
    destruct (String.prefix p (String ch y)) eqn:E; [ | reflexivity].
    exfalso. destruct p as [|a p]; [discriminate | ].
    simpl in E, Hc. destruct (ascii_dec a ch); [ | discriminate].
    subst a. rewrite Ascii.eqb_refl in Hc. discriminate.
  - change (String.prefix p (String b (x ++ String ch y)) || containsb p (x ++ String ch y) =
            (String.prefix p (String b x) || containsb p x) || containsb p y).
    rewrite IH, orb_assoc. f_equal. f_equal.
    destruct (String.prefix p (String b x)) eqn:E.
    + apply (prefix_app _ _ (String ch y)) in E. exact E.
    + destruct (String.prefix p (String b (x ++ String ch y))) eqn:E'; [ | reflexivity].
      rewrite (prefix_sep p (String b x) ch y Hc E') in E. discriminate.
Qed.

Lemma classBlock_tail c : classBlock c = "class" ++ classTail c.
Proof. reflexivity. Qed.

Lemma containsb_classTail x c :
  containsb "namespace" (x ++ classTail c) =
  containsb "namespace" x || containsb "namespace" c.
Proof.
  unfold classTail.
  rewrite (containsb_sep _ x " "%char) by reflexivity.
  rewrite (containsb_sep _ c " "%char) by reflexivity.
  rewrite (containsb_sep _ ("{" ++ nl ++ "public:" ++ nl ++ "   ") " "%char) by reflexivity.
  rewrite (containsb_sep _ c "("%char) by reflexivity.
  rewrite (containsb_sep _ (");" ++ nl ++ "    ") "~"%char) by reflexivity.
  rewrite (containsb_sep _ c "("%char) by reflexivity.
  assert (HA : containsb "namespace" ("{" ++ nl ++ "public:" ++ nl ++ "   ") = false)
    by reflexivity.
  assert (HB : containsb "namespace" (");" ++ nl ++ "    ") = false) by reflexivity.
  assert (HR : containsb "namespace" (");" ++ nl ++ nl ++ "private:" ++ nl ++
                 "    // Members..." ++ nl ++ "};" ++ nl ++ nl) = false) by reflexivity.
  rewrite HA, HB, HR.
  destruct (containsb "namespace" x), (containsb "namespace" c); reflexivity.
Qed.

Lemma ext_headerContent_plain cn c :
  Ext.headerContent cn "" "" c = cn ++ nl ++ nl ++ "#pragma once" ++ nl ++ nl ++ classBlock c.
Proof.
  unfold Ext.headerContent, classBlock. cbv zeta. simpl String.eqb. cbv iota.
  rewrite <- !string_app_assoc. reflexivity.
Qed.

Lemma rel_headerContent_plain cn c :
  Rel.headerContent cn "" "" c = cn ++ nl ++ "#pragma once" ++ nl ++ nl ++ classBlock c.
Proof.
  unfold Rel.headerContent, classBlock. cbv zeta. simpl String.eqb. cbv iota.
  rewrite <- !string_app_assoc. reflexivity.
Qed.

Lemma containsb_plain_header pre cn c :
  containsb "namespace" pre = false ->
  containsb "namespace" (cn ++ String "010"%char (pre ++ classTail c)) =
  containsb "namespace" cn || containsb "namespace" c.
Proof.
  intros Hpre.
  rewrite (containsb_sep _ cn "010"%char) by reflexivity.
  rewrite containsb_classTail, Hpre. reflexivity.
Qed.

(** ** C7: header text without a namespace *)

(** C7 (counterexample): with the namespace prompt left empty, a class
    named "namespace" puts the word "namespace" into the header of both
    revisions. *)
Lemma C7_class_named_namespace :
  namespaceBlocks (Some "") = ("", "") /\
  containsb "namespace"
    (Ext.headerContent (noticeText "Jane" "Nebula") "" "" "namespace") = true /\
  containsb "namespace"
    (Rel.headerContent (noticeText "Jane" "Nebula") "" "" "namespace") = true.
Proof. vm_compute. repeat split. Qed.

(** C7 (amended): for an empty or dismissed namespace input, the header
    of each revision is exactly the copyright notice, the line
    "#pragma once" and one class block whose constructor and destructor
    are named after the class, with no namespace block; the word
    "namespace" occurs in it only if it occurs in the notice or in the
    class name. *)
Theorem C7_plain_header_shape (nsIn : option string) (cn c : string) :
  nsIn = None \/ nsIn = Some "" ->
  let '(o, cl) := namespaceBlocks nsIn in
  Ext.headerContent cn o cl c = cn ++ nl ++ nl ++ "#pragma once" ++ nl ++ nl ++ classBlock c /\
  Rel.headerContent cn o cl c = cn ++ nl ++ "#pragma once" ++ nl ++ nl ++ classBlock c /\
  containsb "namespace" (Ext.headerContent cn o cl c) =
    containsb "namespace" cn || containsb "namespace" c /\
  containsb "namespace" (Rel.headerContent cn o cl c) =
    containsb "namespace" cn || containsb "namespace" c.
Proof.
  intros Hns.
  assert (Hb : namespaceBlocks nsIn = ("", "")) by (destruct Hns; subst; reflexivity).
  rewrite Hb, ext_headerContent_plain, rel_headerContent_plain, classBlock_tail.
  split; [reflexivity | split; [reflexivity | split]].
  - apply (containsb_plain_header (nl ++ "#pragma once" ++ nl ++ nl ++ "class")).
    reflexivity.
  - apply (containsb_plain_header ("#pragma once" ++ nl ++ nl ++ "class")).
    reflexivity.
Qed.

Lemma C7_plain_header_shape_witness :
  (Some "" = None \/ Some "" = Some "") /\
  Ext.headerContent (noticeText "Jane" "Nebula") "" "" "Foo" =
    noticeText "Jane" "Nebula" ++ nl ++ nl ++ "#pragma once" ++ nl ++ nl ++ classBlock "Foo".
Proof.
  split; [right; reflexivity | ].
  exact (proj1 (C7_plain_header_shape (Some "") (noticeText "Jane" "Nebula") "Foo"
                  (or_intror eq_refl))).
Defined.

(** ** C8: the include line of the same-folder placement *)

(** C8: in same-folder placement, whatever the target-folder answer, every
    source file written is the source template filled with the include
    line [#include "<className>.hpp"], in both revisions. *)
Theorem C8_unified_include_directive (h : Env) (base : path) (cn c o cl : string) :
  Hoare h (sourceTextIs (Ext.sourceContent cn o cl c (includeLine c))) (fun _ => True)
    (Ext.sameFolder base cn c o cl) /\
  Hoare h (sourceTextIs (Rel.sourceContent cn o cl c (includeLine c))) (fun _ => True)
    (Rel.sameFolder base cn c o cl).
Proof. split; hoare. Qed.

(** ** C9: a blank target folder is the base folder *)

(** C9: in same-folder placement, when the target-folder prompt is
    dismissed or answered with blanks only, both revisions still write the
    header and then the source file directly into the base folder and
    report success (the writes there being allowed to succeed). *)
Theorem C9_blank_target_writes_in_base (h : Env) (s : St) (base : path) (cn c o cl : string) :
  (forall f, user h PTargetFolder = Some f -> trim f = "") ->
  writeFails h (joinPath base [c ++ ".hpp"]) = false ->
  writeFails h (joinPath base [c ++ ".cpp"]) = false ->
  (exists msg, Ext.sameFolder base cn c o cl h s =
    (Ok tt,
     mkSt (store (joinPath base [c ++ ".cpp"]) (Ext.sourceContent cn o cl c (includeLine c))
             (store (joinPath base [c ++ ".hpp"]) (Ext.headerContent cn o cl c) (files s)))
          (app (log s)
             [EAsk PTargetFolder "";
              EWrite WHeader (joinPath base [c ++ ".hpp"]) (Ext.headerContent cn o cl c);
              EWrite WSource (joinPath base [c ++ ".cpp"])
                (Ext.sourceContent cn o cl c (includeLine c));
              EInfo msg]))) /\
  (exists msg, Rel.sameFolder base cn c o cl h s =
    (Ok tt,
     mkSt (store (joinPath base [c ++ ".cpp"]) (Rel.sourceContent cn o cl c (includeLine c))
             (store (joinPath base [c ++ ".hpp"]) (Rel.headerContent cn o cl c) (files s)))
          (app (log s)
             [EAsk PTargetFolder "";
              EWrite WHeader (joinPath base [c ++ ".hpp"]) (Rel.headerContent cn o cl c);
              EWrite WSource (joinPath base [c ++ ".cpp"])
                (Rel.sourceContent cn o cl c (includeLine c));
              EInfo msg]))).
Proof.
  intros Ht Hh Hs.
  split;
    unfold Ext.sameFolder, Rel.sameFolder, writeClassFiles, catch, bind, showInputBox, emit,
      getEnv, ret, writeFile, showInformationMessage;
    cbv beta zeta; simpl;
    destruct (user h PTargetFolder) as [f|] eqn:Eu; simpl;
    try (destruct (String.eqb f "") eqn:Ef; simpl; [ | rewrite (Ht f eq_refl); simpl]);
    rewrite Hh, Hs; simpl; rewrite <- !app_assoc; eexists; reflexivity.
Qed.

Lemma C9_blank_target_writes_in_base_witness :
  (forall f, user (demoHost (demoAnswers "Same Folder") noWriteFails) PTargetFolder = Some f ->
             trim f = "") /\
  exists msg,
    Ext.sameFolder demoRoot (noticeText "Jane" "Nebula") "Foo" "" ""
      (demoHost (demoAnswers "Same Folder") noWriteFails) demoState =
    (Ok tt,
     mkSt (store (joinPath demoRoot ["Foo.cpp"])
             (Ext.sourceContent (noticeText "Jane" "Nebula") "" "" "Foo" (includeLine "Foo"))
             (store (joinPath demoRoot ["Foo.hpp"])
                (Ext.headerContent (noticeText "Jane" "Nebula") "" "" "Foo") (files demoState)))
          (app (log demoState)
             [EAsk PTargetFolder "";
              EWrite WHeader (joinPath demoRoot ["Foo.hpp"])
                (Ext.headerContent (noticeText "Jane" "Nebula") "" "" "Foo");
              EWrite WSource (joinPath demoRoot ["Foo.cpp"])
                (Ext.sourceContent (noticeText "Jane" "Nebula") "" "" "Foo" (includeLine "Foo"));
              EInfo msg])).
Proof.
  split; [intros f Hf; discriminate Hf | ].
  refine (proj1 (C9_blank_target_writes_in_base
                   (demoHost (demoAnswers "Same Folder") noWriteFails) demoState demoRoot
                   (noticeText "Jane" "Nebula") "Foo" "" "" _ _ _));
    [intros f Hf; discriminate Hf | reflexivity | reflexivity].
Defined.

(** ** C10: the relative include line does not depend on the workspace *)

Lemma fold_normStep_plain l acc :
  ~ In ".." l -> fold_left normStep l acc = (rev (filter keepSeg l) ++ acc)%list.
Proof.
  revert acc. induction l as [|x l IH]; intros acc Hn; [reflexivity | ].
  simpl. unfold normStep at 2, keepSeg.
  assert (Hx : x <> "..") by (intro E; apply Hn; left; rewrite E; reflexivity).
  assert (Hl : ~ In ".." l) by (intro E; apply Hn; right; exact E).
  destruct (String.eqb x "") eqn:E1; simpl; [apply IH, Hl | ].
  destruct (String.eqb x ".") eqn:E2; simpl; [apply IH, Hl | ].
  destruct (String.eqb x "..") eqn:E3; [apply String.eqb_eq in E3; contradiction | ].
  rewrite IH by exact Hl. rewrite <- app_assoc. reflexivity.
Qed.

Lemma pathJoin_plain ws sub :
  ~ In ".." (split_char "/" sub) ->
  pathJoin ws sub = (normalizeSegs (split_char "/" ws) ++ filter keepSeg (split_char "/" sub))%list.
Proof.
  intros Hn. unfold pathJoin, normalizeSegs.
  rewrite fold_left_app, (fold_normStep_plain _ _ Hn), rev_app_distr, rev_involutive.
  reflexivity.
Qed.

Lemma dropCommon_app (pre a b : path) :
  dropCommon (pre ++ a)%list (pre ++ b)%list = dropCommon a b.
Proof.
  induction pre as [|x pre IH]; simpl; [reflexivity | ].
  rewrite String.eqb_refl. exact IH.
Qed.

(** C10: in the relative-path revision, when neither the header folder nor
    the source folder has a ".." segment, the include line of the split
    placement is the same for every workspace path. *)
Theorem C10_include_directive_root_independent (ws1 ws2 hf sf c : string) :
  ~ In ".." (split_char "/" hf) -> ~ In ".." (split_char "/" sf) ->
  Rel.includeDirective ws1 hf sf c = Rel.includeDirective ws2 hf sf c.
Proof.
  intros Hh Hs. unfold Rel.includeDirective, pathRelative. cbv zeta.
  rewrite !(pathJoin_plain _ hf Hh), !(pathJoin_plain _ sf Hs), !dropCommon_app.
  reflexivity.
Qed.

Lemma C10_include_directive_root_independent_witness :
  ~ In ".." (split_char "/" "include") /\ ~ In ".." (split_char "/" "src") /\
  Rel.includeDirective "/home/a" "include" "src" "Foo" =
  Rel.includeDirective "/srv/b/c" "include" "src" "Foo".
Proof.
  split; [simpl; intuition discriminate | split; [simpl; intuition discriminate | ]].
  apply C10_include_directive_root_independent; simpl; intuition discriminate.
Defined.

(** * Further properties of the code *)

Lemma split_char_go_join sep s :
  let (cur, rest) := split_char_go sep s in String.concat (String sep "") (cur :: rest) = s.
Proof.
  induction s as [|c s IH]; [reflexivity | ].
  simpl. destruct (split_char_go sep s) as [cur rest].
  destruct (Ascii.eqb c sep) eqn:E.
  - apply Ascii.eqb_eq in E. subst c.
    transitivity (String sep (String.concat (String sep "") (cur :: rest)));
      [reflexivity | now rewrite IH].
  - transitivity (String c (String.concat (String sep "") (cur :: rest)));
      [destruct rest; reflexivity | now rewrite IH].
Qed.

(** On POSIX [path.sep] is "/", so the normalisation of line 120 of
    part_000, [split(path.sep).join('/')], leaves every string unchanged. *)
Lemma join_split_slash s : join "/" (split_char "/" s) = s.
Proof.
  unfold join, split_char. generalize (split_char_go_join "/" s).
  destruct (split_char_go "/" s). auto.
Qed.

Lemma dropCommon_refl (u : path) : dropCommon u u = ([], []).
Proof. induction u as [|x u IH]; simpl; [reflexivity | now rewrite String.eqb_refl]. Qed.

(** Relative-path revision: when the header folder and the source folder
    are the same string, the include line is the plain
    [#include "<className>.hpp"], whatever the workspace path. *)
Theorem rel_includeDirective_same_folder ws f c :
  Rel.includeDirective ws f f c = includeLine c.
Proof.
  unfold Rel.includeDirective, pathRelative. cbv zeta.
  rewrite dropCommon_refl. reflexivity.
Qed.

Lemma concat_cons_nonempty sep x l : x <> "" -> String.concat sep (x :: l) <> "".
Proof.
  intros Hx. destruct l; simpl; [exact Hx | ].
  destruct x; [contradiction | discriminate].
Qed.

(** Relative-path revision: when the header and source folders have no
    ".." segment and their first kept segments differ, the include line
    climbs out of every segment of the source folder and descends into the
    header folder: [#include "../../include/math/Foo.hpp"] for header folder
    include/math and source folder src/detail. *)
Theorem rel_includeDirective_diverging ws hf sf c :
  ~ In ".." (split_char "/" hf) -> ~ In ".." (split_char "/" sf) ->
  hd_error (filter keepSeg (split_char "/" sf)) <> hd_error (filter keepSeg (split_char "/" hf)) ->
  Rel.includeDirective ws hf sf c =
  includeLine (join "/" (repeat ".." (length (filter keepSeg (split_char "/" sf))) ++
                         filter keepSeg (split_char "/" hf)) ++ "/" ++ c).
Proof.
  intros Hh Hs Hd. unfold Rel.includeDirective, pathRelative. cbv zeta.
  rewrite (pathJoin_plain _ hf Hh), (pathJoin_plain _ sf Hs), dropCommon_app.
  set (H := filter keepSeg (split_char "/" hf)) in *.
  set (S := filter keepSeg (split_char "/" sf)) in *.
  assert (HK : forall x, In x H -> keepSeg x = true)
    by (intros x Hx; apply filter_In in Hx; apply Hx).
  assert (Hdrop : dropCommon S H = (S, H)).
  { destruct S as [|x S], H as [|y H]; try reflexivity.
    simpl. destruct (String.eqb x y) eqn:E; [ | reflexivity].
    apply String.eqb_eq in E. subst. contradiction Hd. reflexivity. }
  rewrite Hdrop, join_split_slash.
  destruct (String.eqb (join "/" (repeat ".." (length S) ++ H)) "") eqn:E; [ | reflexivity].
  exfalso. apply String.eqb_eq in E. revert E. unfold join.
  destruct S as [|x S]; cbn [repeat length app].
  - destruct H as [|y H]; [contradiction Hd; reflexivity | ].
    apply concat_cons_nonempty. intros Ey.
    specialize (HK y (or_introl eq_refl)). subst y. discriminate HK.
  - apply concat_cons_nonempty. discriminate.
Qed.

Lemma substring_full r : substring 0 (String.length r) r = r.
Proof. induction r as [|a r IH]; simpl; [reflexivity | now rewrite IH]. Qed.

Lemma prefix_self_app p r : String.prefix p (p ++ r) = true.
Proof.
  induction p as [|a p IH]; simpl; [destruct r; reflexivity | ].
  destruct (ascii_dec a a); [exact IH | contradiction].
Qed.

Lemma prefix_app_l p q s : String.prefix (p ++ q) s = true -> String.prefix p s = true.
Proof.
  revert s. induction p as [|a p IH]; intros s H; [destruct s; reflexivity | ].
  destruct s as [|b s]; simpl in *; [discriminate | ].
  destruct (ascii_dec a b); [exact (IH s H) | discriminate].
Qed.

Lemma substring_after (p r : string) n :
  n = String.length p -> substring n (String.length (p ++ r) - n) (p ++ r) = r.
Proof.
  intros ->. induction p as [|a p IH]; simpl.
  - rewrite Nat.sub_0_r. apply substring_full.
  - exact IH.
Qed.

(** extension.ts, lines 175-178: the value pre-filled in the source prompt
    replaces a leading "include/" or "include\" by "src/", replaces a bare
    leading "include" by "src/" as well (so "includes" becomes "src/s"), and
    is "src" for a header folder that does not start with "include". *)
Lemma ext_defaultSourceSubfolder_behaviour (r : string) :
  Ext.defaultSourceSubfolder ("include/" ++ r) = "src/" ++ r /\
  Ext.defaultSourceSubfolder ("include\" ++ r) = "src/" ++ r /\
  (String.prefix "/" r = false -> String.prefix "\" r = false ->
   Ext.defaultSourceSubfolder ("include" ++ r) = "src/" ++ r) /\
  (forall s, String.prefix "include" s = false -> Ext.defaultSourceSubfolder s = "src").
Proof.
  unfold Ext.defaultSourceSubfolder, Ext.startsWithIncludeSep.
  split; [ | split; [ | split]].
  - rewrite prefix_self_app. simpl orb. cbv iota.
    rewrite (substring_after "include/" r 8 eq_refl). reflexivity.
  - rewrite (prefix_self_app "include\" r), orb_true_r. cbv iota.
    rewrite (substring_after "include\" r 8 eq_refl). reflexivity.
  - intros H1 H2.
    replace (String.prefix "include/" ("include" ++ r)) with (String.prefix "/" r) by reflexivity.
    replace (String.prefix "include\" ("include" ++ r)) with (String.prefix "\" r) by reflexivity.
    rewrite H1, H2, prefix_self_app. simpl orb. cbv iota.
    rewrite (substring_after "include" r 7 eq_refl). reflexivity.
  - intros s Hs.
    assert (H1 : String.prefix "include/" s = false).
    { destruct (String.prefix "include/" s) eqn:E; [ | reflexivity].
      rewrite (prefix_app_l "include" "/" s E) in Hs. discriminate. }
    assert (H2 : String.prefix "include\" s = false).
    { destruct (String.prefix "include\" s) eqn:E; [ | reflexivity].
      rewrite (prefix_app_l "include" "\" s E) in Hs. discriminate. }
    rewrite H1, H2, Hs. simpl orb. cbv iota. rewrite String.eqb_refl. reflexivity.
Qed.

(** extension.ts, lines 190-197: a header folder "include/<r>" or
    "include\<r>" gives the include line of "<r>/<className>", or of the
    bare class name when [r] is empty; any other non-empty header folder is
    kept whole in the include line. *)
Lemma ext_includeDirective_behaviour (c r : string) :
  Ext.includeDirective ("include/" ++ r) c =
    (if String.eqb r "" then includeLine c else includeLine (r ++ "/" ++ c)) /\
  Ext.includeDirective ("include\" ++ r) c =
    (if String.eqb r "" then includeLine c else includeLine (r ++ "/" ++ c)) /\
  (forall hs, String.prefix "include/" hs = false -> String.prefix "include\" hs = false ->
   hs <> "" -> Ext.includeDirective hs c = includeLine (hs ++ "/" ++ c)).
Proof.
  unfold Ext.includeDirective, Ext.startsWithIncludeSep.
  split; [ | split].
  - rewrite prefix_self_app. simpl orb. cbv iota.
    rewrite (substring_after "include/" r 8 eq_refl). reflexivity.
  - rewrite (prefix_self_app "include\" r), orb_true_r. cbv iota.
    rewrite (substring_after "include\" r 8 eq_refl). reflexivity.
  - intros hs H1 H2 Hne. rewrite H1, H2. simpl orb. cbv iota.
    destruct (String.eqb hs "") eqn:E; [apply String.eqb_eq in E; contradiction | reflexivity].
Qed.


Ltac run_unfold :=
  unfold Ext.createClassFiles, Ext.selectBaseFolder, Ext.selectSubFolder,
    Ext.getSubdirectories, Rel.createClassFiles, getOrCreateCopyrightNotice,
    readDirectory, showInputBox, showQuickPick, showErrorMessage, showInformationMessage,
    stat, readFile, writeFile, catch, bind, ret, throw, emit, getEnv;
  cbv beta zeta.

(** With no workspace folder open, both revisions show the single error
    "No workspace folder open." and do nothing else: no prompt, no write. *)
Theorem no_workspace_folder (h : Env) (s : St) :
  workspaceFolders h = [] ->
  Ext.createClassFiles h s = (Ok tt, mkSt (files s) (app (log s) [EError "No workspace folder open."])) /\
  Rel.createClassFiles h s = (Ok tt, mkSt (files s) (app (log s) [EError "No workspace folder open."])).
Proof. intros Hw. split; run_unfold; rewrite Hw; reflexivity. Qed.

(** extension.ts: when the only workspace folder cannot be listed, the
    command shows "Failed to read subdirectories: ..." and ends, with no
    prompt and no write. *)
Theorem ext_unreadable_base (h : Env) (s : St) n root :
  workspaceFolders h = [(n, root)] -> readDirectoryResult h root = None ->
  Ext.createClassFiles h s =
    (Ok tt, mkSt (files s) (app (log s) [EError "Failed to read subdirectories: FileSystemError"])).
Proof. intros Hw Hr. run_unfold. rewrite Hw. cbn -[joinPath lookup]. rewrite Hr. reflexivity. Qed.

Lemma keeps_ret {A} (a : A) : KeepsFiles (ret a).
Proof. intros h s. reflexivity. Qed.
Lemma keeps_throw {A} msg : KeepsFiles (A := A) (throw msg).
Proof. intros h s. reflexivity. Qed.
Lemma keeps_emit e : KeepsFiles (emit e).
Proof. intros h s. reflexivity. Qed.
Lemma keeps_bind {A B} (m : M A) (k : A -> M B) :
  KeepsFiles m -> (forall a, KeepsFiles (k a)) -> KeepsFiles (bind m k).
Proof.
  intros Hm Hk h s. unfold bind. specialize (Hm h s).
  destruct (m h s) as [[a|e] s'] eqn:E; simpl in *; [rewrite Hk | ]; exact Hm.
Qed.
Lemma keeps_catch {A} (m : M A) k :
  KeepsFiles m -> (forall e, KeepsFiles (k e)) -> KeepsFiles (catch m k).
Proof.
  intros Hm Hk h s. unfold catch. specialize (Hm h s).
  destruct (m h s) as [[a|e] s'] eqn:E; simpl in *; [ | rewrite Hk]; exact Hm.
Qed.
Lemma keeps_getEnv : KeepsFiles getEnv.
Proof. intros h s. reflexivity. Qed.
Lemma keeps_readDirectory u : KeepsFiles (readDirectory u).
Proof.
  intros h s. unfold readDirectory, bind, getEnv. cbv beta iota.
  destruct (readDirectoryResult h u); reflexivity.
Qed.

Lemma ext_selectSubFolder_keeps root : KeepsFiles (Ext.selectSubFolder root).
Proof.
  unfold Ext.selectSubFolder, Ext.getSubdirectories, showQuickPick, showErrorMessage.
  apply keeps_bind.
  - apply keeps_catch; [apply keeps_bind; [apply keeps_bind | ] | ];
      intros; try apply keeps_readDirectory; try apply keeps_ret.
    apply keeps_bind; [apply keeps_emit | intros; apply keeps_ret].
  - intros [subdirs|]; [ | apply keeps_ret].
    apply keeps_bind; [apply keeps_bind; [apply keeps_emit | intros; apply keeps_bind;
                                          [apply keeps_getEnv | intros; apply keeps_ret]] | ].
    intros sel. destruct (nonEmpty sel); apply keeps_ret.
Qed.

Lemma ext_selectBaseFolder_keeps : KeepsFiles Ext.selectBaseFolder.
Proof.
  unfold Ext.selectBaseFolder, showQuickPick, showErrorMessage.
  apply keeps_bind; [apply keeps_getEnv | intros h].
  destruct (workspaceFolders h) as [|f [|g l]].
  - apply keeps_bind; [apply keeps_emit | intros; apply keeps_ret].
  - apply ext_selectSubFolder_keeps.
  - repeat first [apply keeps_bind | apply keeps_ret | apply keeps_emit | apply keeps_getEnv | intro].
    destruct (nonEmpty _); [ | apply keeps_ret].
    destruct (find _ _); [apply ext_selectSubFolder_keeps | apply keeps_throw].
Qed.

Lemma ext_selectBaseFolder_files h s r s' :
  Ext.selectBaseFolder h s = (r, s') -> files s' = files s.
Proof. intros E. pose proof (ext_selectBaseFolder_keeps h s) as K. rewrite E in K. exact K. Qed.

Lemma ext_createClassFiles_after_base h s base s1 :
  Ext.selectBaseFolder h s = (Ok (Some base), s1) ->
  Ext.createClassFiles h s =
  (copyright <- catch (n <- getOrCreateCopyrightNotice base;; ret (Some n))
                      (fun e => showErrorMessage e;;; ret None);;
   match copyright with
   | None => ret tt
   | Some copyrightNotice =>
       className <- showInputBox PClassName "";;
       match nonEmpty className with
       | None => showErrorMessage "Class name is required.";;; ret tt
       | Some className =>
           nsInput <- showInputBox PNamespace "";;
           let '(openNamespaces, closeNamespaces) := namespaceBlocks nsInput in
           placementOption <- showQuickPick PPlacement ["Same Folder"; "Separate Folders"];;
           match nonEmpty placementOption with
           | None => ret tt
           | Some placementOption =>
               if String.eqb placementOption "Separate Folders" then
                 Ext.separateFolders base copyrightNotice className openNamespaces closeNamespaces
               else
                 Ext.sameFolder base copyrightNotice className openNamespaces closeNamespaces
           end
       end
   end) h s1.
Proof. intros E. unfold Ext.createClassFiles at 1. unfold bind at 1. rewrite E. reflexivity. Qed.

(** When COPYRIGHT.txt is missing and the author prompt is dismissed or
    left empty: in extension.ts, whatever base folder was selected and
    however, the command then asks only for the author and shows "Author
    name is required." twice (once in getOrCreateCopyrightNotice, once in
    the handler's catch); the relative-path revision asks only for the
    author and shows it once.  Neither writes anything. *)
Theorem author_dismissed_messages (h : Env) (s : St) :
  (user h PAuthor = None \/ user h PAuthor = Some "") ->
  (forall base s1, Ext.selectBaseFolder h s = (Ok (Some base), s1) ->
   lookup (joinPath base ["COPYRIGHT.txt"]) (files s) = None ->
   Ext.createClassFiles h s =
     (Ok tt, mkSt (files s) (app (log s1)
        [EAsk PAuthor ""; EError "Author name is required."; EError "Author name is required."]))) /\
  (forall f rest, workspaceFolders h = f :: rest ->
   lookup (joinPath (snd f) ["COPYRIGHT.txt"]) (files s) = None ->
   Rel.createClassFiles h s =
     (Ok tt, mkSt (files s) (app (log s) [EAsk PAuthor ""; EError "Author name is required."]))).
Proof.
  intros Ha. split.
  - intros base s1 Hsel Hc.
    rewrite (ext_createClassFiles_after_base h s base s1 Hsel).
    rewrite <- (ext_selectBaseFolder_files h s _ _ Hsel) in Hc |- *.
    unfold getOrCreateCopyrightNotice, showInputBox, showErrorMessage, stat, readFile,
      catch, bind, ret, throw, emit, getEnv.
    cbv beta zeta. rewrite Hc. cbn -[joinPath lookup].
    destruct Ha as [Ha | Ha]; rewrite Ha; cbn -[joinPath lookup]; rewrite <- !app_assoc;
      destruct s1; reflexivity.
  - intros f rest Hw Hc. run_unfold. rewrite Hw. cbn -[joinPath lookup].
    rewrite Hc. cbn -[joinPath lookup]. destruct Ha as [Ha | Ha]; rewrite Ha; cbn -[joinPath lookup];
      rewrite <- !app_assoc; reflexivity.
Qed.

Lemma ext_selectSubFolder_ok (root : path) (h : Env) (s : St) :
  exists r s', Ext.selectSubFolder root h s = (Ok r, s').
Proof.
  unfold Ext.selectSubFolder, Ext.getSubdirectories, readDirectory, showQuickPick,
    showErrorMessage, catch, bind, ret, throw, emit, getEnv.
  cbv beta iota zeta.
  destruct (readDirectoryResult h root); cbv beta iota zeta; [ | eauto].
  destruct (nonEmpty _); eauto.
Qed.

Lemma pickResult_listed a items x :
  pickResult a items = Some x -> existsb (String.eqb x) items = true.
Proof.
  destruct a as [y|]; simpl; [ | discriminate].
  destruct (existsb (String.eqb y) items) eqn:E; intros H; inversion H; subst; auto.
Qed.

Lemma find_listed {B} x (l : list (string * B)) :
  existsb (String.eqb x) (map fst l) = true ->
  exists f, find (fun f => String.eqb (fst f) x) l = Some f.
Proof.
  induction l as [|a l IH]; simpl; [discriminate | ].
  rewrite (String.eqb_sym (fst a) x).
  destruct (String.eqb x (fst a)); simpl; eauto.
Qed.

(** extension.ts: the base-folder selection never raises; in particular
    the non-null assertion [selectedFolder!] of line 71 never meets an
    undefined folder, since the quick pick only returns listed names. *)
Theorem ext_selectBaseFolder_never_throws (h : Env) (s : St) :
  exists r s', Ext.selectBaseFolder h s = (Ok r, s').
Proof.
  unfold Ext.selectBaseFolder, showQuickPick, showErrorMessage, bind, ret, throw, emit, getEnv.
  cbv beta iota zeta.
  destruct (workspaceFolders h) as [|f [|g fs]] eqn:Hw; cbv beta iota zeta; eauto.
  - apply ext_selectSubFolder_ok.
  - destruct (pickResult (user h PWorkspace) (map fst (f :: g :: fs))) as [x|] eqn:Ep;
      cbn [nonEmpty]; eauto.
    destruct (String.eqb x "") eqn:Ex; cbv beta iota; eauto.
    destruct (find_listed x (f :: g :: fs) (pickResult_listed _ _ _ Ep)) as [f' Hf].
    rewrite Hf. apply ext_selectSubFolder_ok.
Qed.


Lemma split_char_go_nosep sep x : charIn sep x = false -> split_char_go sep x = (x, []).
Proof.
  induction x as [|c x IH]; simpl; [reflexivity | ].
  intros H. apply orb_false_iff in H as [H1 H2].
  rewrite IH by exact H2. rewrite Ascii.eqb_sym, H1. reflexivity.
Qed.

Lemma joinPath_plain root x :
  plainSeg x = true -> joinPath root [x] = (normalizeSegs root ++ [x])%list.
Proof.
  unfold plainSeg. intros H. apply andb_true_iff in H as [H H3].
  apply andb_true_iff in H as [H1 H2].
  unfold joinPath, split_char. simpl flat_map.
  rewrite (split_char_go_nosep _ _ (proj1 (negb_true_iff _) H3)).
  unfold normalizeSegs. simpl app. rewrite fold_left_app. simpl fold_left.
  unfold normStep at 1. unfold keepSeg in H1. apply negb_true_iff in H1, H2.
  rewrite H1, H2. reflexivity.
Qed.

Lemma basename_plain root x : plainSeg x = true -> basename (joinPath root [x]) = x.
Proof. intros H. unfold basename. rewrite (joinPath_plain root x H). apply last_last. Qed.

Lemma find_first_label {B} (g : string -> B) (l : list (string * bool)) n :
  In n (map fst l) ->
  find (fun it => String.eqb (fst it) n) (map (fun e => (fst e, g (fst e))) l) = Some (n, g n).
Proof.
  induction l as [|e l IH]; simpl; [contradiction | ].
  intros [E | E].
  - subst n. rewrite String.eqb_refl. reflexivity.
  - destruct (String.eqb (fst e) n) eqn:En; [ | exact (IH E)].
    apply String.eqb_eq in En. rewrite En. reflexivity.
Qed.

(** extension.ts: when every entry of the listing has a plain name,
    picking the label of a subdirectory (other than the reserved label)
    selects that subdirectory of the root. *)
Theorem ext_selectSubFolder_pick_dir (root : path) (h : Env) (s : St) entries n :
  readDirectoryResult h root = Some entries ->
  Forall (fun e => plainSeg (fst e) = true) entries ->
  In (n, true) entries -> n <> "(Use current folder)" -> user h PSubfolder = Some n ->
  fst (Ext.selectSubFolder root h s) = Ok (Some (joinPath root [n])).
Proof.
  intros Hr Hplain Hin Hn Hu.
  assert (Hitems : map (fun u => (basename u, u))
                     (map (fun e => joinPath root [fst e]) (filter (fun e => snd e) entries)) =
                   map (fun e => (fst e, joinPath root [fst e])) (filter (fun e => snd e) entries)).
  { rewrite map_map. apply map_ext_in. intros e He.
    apply filter_In in He as [He _].
    rewrite (basename_plain root (fst e) (proj1 (Forall_forall _ _) Hplain e He)).
    reflexivity. }
  assert (HinF : In n (map fst (filter (fun e => snd e) entries))).
  { apply in_map_iff. exists (n, true). split; [reflexivity | ]. apply filter_In. auto. }
  assert (Hne : String.eqb n "" = false).
  { pose proof (proj1 (Forall_forall _ _) Hplain _ Hin) as Hp. simpl in Hp.
    unfold plainSeg, keepSeg in Hp.
    destruct (String.eqb n ""); [discriminate Hp | reflexivity]. }
  unfold Ext.selectSubFolder, Ext.getSubdirectories, readDirectory, showQuickPick,
    catch, bind, ret, emit, getEnv.
  cbv beta iota zeta. rewrite Hr. cbv beta iota zeta.
  rewrite Hitems, Hu. unfold pickResult.
  replace (existsb (String.eqb n) (map fst (("(Use current folder)", root) ::
             map (fun e => (fst e, joinPath root [fst e])) (filter (fun e => snd e) entries))))
    with true.
  2:{ symmetry. apply existsb_exists. exists n. split; [ | apply String.eqb_refl].
      right. rewrite map_map. exact HinF. }
  unfold nonEmpty. rewrite Hne. cbn [find fst].
  destruct (String.eqb "(Use current folder)" n) eqn:E.
  { apply String.eqb_eq in E. symmetry in E. contradiction. }
  rewrite (find_first_label (fun x => joinPath root [x]) _ n HinF). reflexivity.
Qed.

(** extension.ts: the label "(Use current folder)" always selects the root
    itself, even when a subdirectory has that name: such a subdirectory
    cannot be picked. *)
Theorem ext_selectSubFolder_current_label (root : path) (h : Env) (s : St) entries :
  readDirectoryResult h root = Some entries ->
  user h PSubfolder = Some "(Use current folder)" ->
  fst (Ext.selectSubFolder root h s) = Ok (Some root).
Proof.
  intros Hr Hu.
  unfold Ext.selectSubFolder, Ext.getSubdirectories, readDirectory, showQuickPick,
    catch, bind, ret, emit, getEnv.
  cbv beta iota zeta. rewrite Hr. cbv beta iota zeta. rewrite Hu. reflexivity.
Qed.

(** extension.ts: a folder returned by the subfolder picker is the root or
    the URI of a directory entry of the root's listing. *)
Theorem ext_selectSubFolder_in_root (root : path) (h : Env) (s s' : St) entries u :
  readDirectoryResult h root = Some entries ->
  Ext.selectSubFolder root h s = (Ok (Some u), s') ->
  u = root \/ exists n, In (n, true) entries /\ u = joinPath root [n].
Proof.
  intros Hr.
  unfold Ext.selectSubFolder, Ext.getSubdirectories, readDirectory, showQuickPick,
    catch, bind, ret, emit, getEnv.
  cbv beta iota zeta. rewrite Hr. cbv beta iota zeta.
  destruct (nonEmpty _) as [sel|]; [ | discriminate].
  set (items := ("(Use current folder)", root) :: _).
  destruct (find (fun it => String.eqb (fst it) sel) items) as [it|] eqn:Ef;
    simpl; intros E; inversion E; subst u; clear E.
  apply find_some in Ef as [Hit _].
  destruct Hit as [Hit | Hit]; [left; subst it; reflexivity | right].
  rewrite map_map in Hit. apply in_map_iff in Hit as [e [He Hin]].
  apply filter_In in Hin as [Hin Hs].
  destruct e as [n b]. simpl in Hs. subst b.
  exists n. split; [exact Hin | subst it; reflexivity].
Qed.

Lemma path_eqb_true u v : path_eqb u v = true -> u = v.
Proof.
  revert v. induction u as [|x u IH]; intros [|y v]; simpl; try discriminate; [reflexivity | ].
  intros H. apply andb_true_iff in H as [H1 H2].
  apply String.eqb_eq in H1. subst y. f_equal. exact (IH v H2).
Qed.

Lemma path_eqb_refl u : path_eqb u u = true.
Proof. induction u as [|x u IH]; simpl; [reflexivity | now rewrite String.eqb_refl, IH]. Qed.

Lemma lookup_store_same u t fs : lookup u (store u t fs) = Some t.
Proof.
  induction fs as [|[v t'] fs IH]; simpl; [now rewrite path_eqb_refl | ].
  destruct (path_eqb u v) eqn:E; simpl; rewrite E; [reflexivity | exact IH].
Qed.

Lemma lookup_store_other u v t fs :
  path_eqb v u = false -> lookup v (store u t fs) = lookup v fs.
Proof.
  intros Hvu. induction fs as [|[w t'] fs IH]; simpl; [now rewrite Hvu | ].
  destruct (path_eqb u w) eqn:E; simpl.
  - apply path_eqb_true in E. subst w. rewrite Hvu. reflexivity.
  - rewrite IH. reflexivity.
Qed.

Lemma files_mkSt a b : files (mkSt a b) = a.
Proof. reflexivity. Qed.

Lemma getOrCreate_creates (h : Env) (s : St) base a p :
  lookup (joinPath base ["COPYRIGHT.txt"]) (files s) = None ->
  user h PAuthor = Some a -> a <> "" -> user h PProject = Some p -> p <> "" ->
  writeFails h (joinPath base ["COPYRIGHT.txt"]) = false ->
  getOrCreateCopyrightNotice base h s =
    (Ok (noticeText a p),
     mkSt (store (joinPath base ["COPYRIGHT.txt"]) (noticeText a p) (files s))
          (app (log s) [EAsk PAuthor ""; EAsk PProject "";
                        EWrite WCopyright (joinPath base ["COPYRIGHT.txt"]) (noticeText a p)])).
Proof.
  intros Hl Ha Hae Hp Hpe Hw.
  unfold getOrCreateCopyrightNotice, showInputBox, showErrorMessage, stat, readFile, writeFile,
    catch, bind, ret, throw, emit, getEnv.
  cbv beta iota zeta. rewrite Hl. cbv beta iota zeta. rewrite Ha.
  unfold nonEmpty.
  destruct (String.eqb a "") eqn:Ea; [apply String.eqb_eq in Ea; contradiction | ].
  cbv beta iota. rewrite Hp.
  destruct (String.eqb p "") eqn:Ep; [apply String.eqb_eq in Ep; contradiction | ].
  cbv beta iota. rewrite Hw. cbn [files log]. rewrite <- !app_assoc. reflexivity.
Qed.

(** getOrCreateCopyrightNotice, both revisions: when COPYRIGHT.txt is
    missing and the author and project name are given, the notice is
    returned and stored in COPYRIGHT.txt; a second call then returns the
    same text and leaves the state unchanged (no prompt, no write). *)
Theorem copyright_create_then_read (h : Env) (s : St) base a p :
  lookup (joinPath base ["COPYRIGHT.txt"]) (files s) = None ->
  user h PAuthor = Some a -> a <> "" -> user h PProject = Some p -> p <> "" ->
  writeFails h (joinPath base ["COPYRIGHT.txt"]) = false ->
  let (r1, s1) := getOrCreateCopyrightNotice base h s in
  r1 = Ok (noticeText a p) /\
  lookup (joinPath base ["COPYRIGHT.txt"]) (files s1) = Some (noticeText a p) /\
  getOrCreateCopyrightNotice base h s1 = (Ok (noticeText a p), s1).
Proof.
  intros Hl Ha Hae Hp Hpe Hw.
  rewrite (getOrCreate_creates h s base a p Hl Ha Hae Hp Hpe Hw).
  cbn [files]. rewrite lookup_store_same.
  split; [reflexivity | split; [reflexivity | ]].
  unfold getOrCreateCopyrightNotice, stat, readFile, catch, bind, ret.
  cbv beta iota zeta. rewrite files_mkSt, lookup_store_same. cbv beta iota zeta.
  rewrite files_mkSt, lookup_store_same. reflexivity.
Qed.




Lemma indep_ret {A} (a : A) : Indep (ret a).
Proof. intros h h' s _. reflexivity. Qed.
Lemma indep_throw {A} msg : Indep (A := A) (throw msg).
Proof. intros h h' s _. reflexivity. Qed.
Lemma indep_emit e : Indep (emit e).
Proof. intros h h' s _. reflexivity. Qed.
Lemma indep_bind {A B} (m : M A) (k : A -> M B) :
  Indep m -> (forall a, Indep (k a)) -> Indep (bind m k).
Proof.
  intros Hm Hk h h' s H. unfold bind. rewrite (Hm h h' s H).
  destruct (m h' s) as [[a|e] s']; [apply Hk, H | reflexivity].
Qed.
Lemma indep_catch {A} (m : M A) k :
  Indep m -> (forall e, Indep (k e)) -> Indep (catch m k).
Proof.
  intros Hm Hk h h' s H. unfold catch. rewrite (Hm h h' s H).
  destruct (m h' s) as [[a|e] s']; [reflexivity | apply Hk, H].
Qed.
Lemma indep_showInputBox p v : Indep (showInputBox p v).
Proof.
  intros h h' s [Hu _]. unfold showInputBox, bind, emit, getEnv, ret. simpl. rewrite Hu. reflexivity.
Qed.
Lemma indep_showQuickPick p items : Indep (showQuickPick p items).
Proof.
  intros h h' s [Hu _]. unfold showQuickPick, bind, emit, getEnv, ret. simpl. rewrite Hu. reflexivity.
Qed.
Lemma indep_stat u : Indep (stat u).
Proof. intros h h' s _. reflexivity. Qed.
Lemma indep_readFile u : Indep (readFile u).
Proof. intros h h' s _. reflexivity. Qed.
Lemma indep_writeFile k u t : Indep (writeFile k u t).
Proof. intros h h' s [_ [_ Hw]]. unfold writeFile. rewrite Hw. reflexivity. Qed.

Ltac indep_step :=
  match goal with
  | |- Indep ((fun _ => _) _) => cbv beta
  | |- Indep (let _ := _ in _) => cbv zeta
  | |- Indep (bind _ _) => apply indep_bind; [ | intro]
  | |- Indep (catch _ _) => apply indep_catch; [ | intro]
  | |- Indep (ret _) => apply indep_ret
  | |- Indep (throw _) => apply indep_throw
  | |- Indep (emit _) => apply indep_emit
  | |- Indep (showErrorMessage _) => apply indep_emit
  | |- Indep (showInformationMessage _) => apply indep_emit
  | |- Indep (showInputBox _ _) => apply indep_showInputBox
  | |- Indep (showQuickPick _ _) => apply indep_showQuickPick
  | |- Indep (stat _) => apply indep_stat
  | |- Indep (readFile _) => apply indep_readFile
  | |- Indep (writeFile _ _ _) => apply indep_writeFile
  | |- Indep (match ?x with _ => _ end) => destruct x
  | |- Indep (getOrCreateCopyrightNotice _) => unfold getOrCreateCopyrightNotice
  | |- Indep (writeClassFiles _ _ _ _ _) => unfold writeClassFiles
  | |- Indep (Rel.separateFolders _ _ _ _ _) => unfold Rel.separateFolders
  | |- Indep (Rel.sameFolder _ _ _ _ _) => unfold Rel.sameFolder
  end.

Lemma bind_getEnv {B} (k : Env -> M B) h s : bind getEnv k h s = k h h s.
Proof. reflexivity. Qed.

(** Relative-path revision: only the first workspace folder matters; the
    command behaves the same when the other workspace folders are removed. *)
Theorem rel_first_workspace_only (h : Env) (s : St) f rest :
  workspaceFolders h = f :: rest ->
  Rel.createClassFiles h s =
  Rel.createClassFiles (mkEnv (user h) [f] (readDirectoryResult h) (writeFails h)) s.
Proof.
  intros Hw. unfold Rel.createClassFiles. rewrite !bind_getEnv.
  rewrite Hw. cbn [workspaceFolders]. cbv beta iota zeta.
  match goal with |- ?m h s = ?m' _ s => change m' with m end.
  match goal with |- ?m h s = _ => assert (Hi : Indep m) by (repeat indep_step) end.
  apply Hi. repeat split.
Qed.

Lemma string_length_app (a b : string) : String.length (a ++ b) = String.length a + String.length b.
Proof. induction a as [|x a IH]; simpl; [reflexivity | now rewrite IH]. Qed.

Lemma split_char_go_app_nosep sep s t :
  charIn sep t = false ->
  let (cur, rest) := split_char_go sep (s ++ t) in
  exists init w, cur :: rest = app init [w ++ t].
Proof.
  intros Ht. induction s as [|c s IH]; simpl.
  - rewrite (split_char_go_nosep _ _ Ht). exists [], "". reflexivity.
  - destruct (split_char_go sep (s ++ t)) as [cur rest].
    destruct IH as [init [w E]].
    destruct (Ascii.eqb c sep).
    + exists ("" :: init), w. rewrite E. reflexivity.
    + destruct init as [|i init]; simpl in E; injection E as E1 E2; subst.
      * exists [], (String c w). reflexivity.
      * exists (String c i :: init), w. reflexivity.
Qed.

Lemma keepSeg_long x : 2 < String.length x -> keepSeg x = true /\ String.eqb x ".." = false.
Proof.
  intros H. unfold keepSeg.
  destruct (String.eqb x "") eqn:E1; [apply String.eqb_eq in E1; subst; simpl in H; lia | ].
  destruct (String.eqb x ".") eqn:E2; [apply String.eqb_eq in E2; subst; simpl in H; lia | ].
  destruct (String.eqb x "..") eqn:E3; [apply String.eqb_eq in E3; subst; simpl in H; lia | ].
  auto.
Qed.

Lemma normalizeSegs_snoc l x :
  keepSeg x = true -> String.eqb x ".." = false ->
  normalizeSegs (l ++ [x])%list = (normalizeSegs l ++ [x])%list.
Proof.
  intros H1 H2. unfold normalizeSegs. rewrite fold_left_app. simpl fold_left.
  unfold normStep at 1. unfold keepSeg in H1. apply negb_true_iff in H1.
  rewrite H1, H2. reflexivity.
Qed.

(** The last segment of the URI of a file named [name ++ ext]. *)
Lemma joinPath_last_ext base l name ext :
  charIn "/" ext = false -> 2 < String.length ext ->
  exists w, last (joinPath base (app l [name ++ ext])) "" = w ++ ext.
Proof.
  intros Hc Hl. unfold joinPath. rewrite flat_map_app. simpl flat_map.
  unfold split_char.
  generalize (split_char_go_app_nosep "/" name ext Hc).
  destruct (split_char_go "/" (name ++ ext)) as [cur rest].
  intros [init [w E]]. rewrite E, app_nil_r, !app_assoc.
  assert (Hlong : 2 < String.length (w ++ ext)) by (rewrite string_length_app; lia).
  destruct (keepSeg_long _ Hlong) as [K1 K2].
  rewrite (normalizeSegs_snoc _ _ K1 K2). exists w. apply last_last.
Qed.

Lemma hpp_cpp_differ a b : a ++ ".hpp" <> b ++ ".cpp".
Proof.
  revert b. induction a as [|x a IH]; intros [|y b] E; try discriminate.
  - simpl in E. injection E as _ E. apply (f_equal String.length) in E.
    rewrite string_length_app in E. simpl in E. lia.
  - simpl in E. injection E as _ E. apply (f_equal String.length) in E.
    rewrite string_length_app in E. simpl in E. lia.
  - simpl in E. injection E as _ E. exact (IH b E).
Qed.

Lemma class_files_distinct b1 b2 l1 l2 c :
  path_eqb (joinPath b1 (app l1 [c ++ ".hpp"])) (joinPath b2 (app l2 [c ++ ".cpp"])) = false.
Proof.
  destruct (path_eqb _ _) eqn:E; [ | reflexivity]. exfalso.
  apply path_eqb_true in E.
  destruct (joinPath_last_ext b1 l1 c ".hpp" eq_refl ltac:(simpl; lia)) as [w1 E1].
  destruct (joinPath_last_ext b2 l2 c ".cpp" eq_refl ltac:(simpl; lia)) as [w2 E2].
  rewrite E, E2 in E1. exact (hpp_cpp_differ w1 w2 (eq_sym E1)).
Qed.

Lemma writeClassFiles_ok (h : Env) (s : St) hu hc su sc info :
  writeFails h hu = false -> writeFails h su = false ->
  writeClassFiles hu hc su sc info h s =
    (Ok tt, mkSt (store su sc (store hu hc (files s)))
                 (app (log s) [EWrite WHeader hu hc; EWrite WSource su sc; EInfo info])).
Proof.
  intros H1 H2. unfold writeClassFiles, catch, bind, writeFile, showInformationMessage, emit.
  rewrite H1. cbv beta iota zeta. cbn [files log]. rewrite H2. cbn [files log].
  rewrite <- !app_assoc. reflexivity.
Qed.

(** Separate-folder placement, when every write succeeds: in extension.ts
    (given header and source answers) and in the relative-path revision
    (for every answer, a dismissed or empty one falling back to include and
    src), the header file holds the header text and the source file the
    source text afterwards, even when the two folders are the same: the two
    URIs never coincide, since their last segments end in ".hpp" and
    ".cpp". *)
Theorem separate_folders_keep_both_files (h : Env) (s : St) base cn c o cl :
  (forall u, writeFails h u = false) ->
  (forall hi si,
   user h PHeaderFolder = Some hi -> hi <> "" -> user h PSourceFolder = Some si -> si <> "" ->
   let (r, s') := Ext.separateFolders base cn c o cl h s in
   r = Ok tt /\
   lookup (joinPath base (app (split_char "/" (trim hi)) [c ++ ".hpp"])) (files s') =
     Some (Ext.headerContent cn o cl c) /\
   lookup (joinPath base (app (split_char "/" (trim si)) [c ++ ".cpp"])) (files s') =
     Some (Ext.sourceContent cn o cl c (Ext.includeDirective (trim hi) c))) /\
  (let hf := match nonEmpty (user h PHeaderFolder) with Some x => trim x | None => "include" end in
   let sf := match nonEmpty (user h PSourceFolder) with Some x => trim x | None => "src" end in
   let (r, s') := Rel.separateFolders base cn c o cl h s in
   r = Ok tt /\
   lookup (joinPath base [hf; c ++ ".hpp"]) (files s') = Some (Rel.headerContent cn o cl c) /\
   lookup (joinPath base [sf; c ++ ".cpp"]) (files s') =
     Some (Rel.sourceContent cn o cl c (Rel.includeDirective (fsPath base) hf sf c))).
Proof.
  intros Hw. split.
  - intros hi si Hh Hhe Hs Hse.
    assert (Ehi : String.eqb hi "" = false) by (apply String.eqb_neq; exact Hhe).
    assert (Esi : String.eqb si "" = false) by (apply String.eqb_neq; exact Hse).
    unfold Ext.separateFolders, showInputBox, bind, emit, getEnv, ret.
    cbv beta iota zeta. rewrite Hh. unfold nonEmpty at 1. rewrite Ehi.
    cbv beta iota zeta. rewrite Hs. unfold nonEmpty. rewrite Esi. cbv beta iota zeta.
    rewrite writeClassFiles_ok by apply Hw. cbn [files].
    split; [reflexivity | split].
    + rewrite lookup_store_other by apply (class_files_distinct _ _ _ _ c).
      apply lookup_store_same.
    + apply lookup_store_same.
  - cbv zeta.
    set (hf := match nonEmpty (user h PHeaderFolder) with Some x => trim x | None => "include" end).
    set (sf := match nonEmpty (user h PSourceFolder) with Some x => trim x | None => "src" end).
    unfold Rel.separateFolders, showInputBox, bind, emit, getEnv, ret.
    cbv beta iota zeta. fold hf sf.
    rewrite writeClassFiles_ok by apply Hw. cbn [files].
    split; [reflexivity | split].
    + rewrite lookup_store_other by apply (class_files_distinct base base [hf] [sf] c).
      apply lookup_store_same.
    + apply lookup_store_same.
Qed.

Lemma joinPath_empty_seg base l : joinPath base ("" :: l) = joinPath base l.
Proof.
  unfold joinPath, normalizeSegs. simpl flat_map. unfold split_char at 1. simpl.
  rewrite !fold_left_app. reflexivity.
Qed.

(** extension.ts: a header-folder answer made only of blanks is not a
    cancellation; the source prompt is pre-filled with "src", the header is
    written into the base folder itself and the source file includes the
    bare [#include "<className>.hpp"]. *)
Theorem ext_blank_header_folder (h : Env) (s : St) base cn c o cl hi si :
  user h PHeaderFolder = Some hi -> hi <> "" -> trim hi = "" ->
  user h PSourceFolder = Some si -> si <> "" ->
  (forall u, writeFails h u = false) ->
  exists msg, Ext.separateFolders base cn c o cl h s =
    (Ok tt,
     mkSt (store (joinPath base (app (split_char "/" (trim si)) [c ++ ".cpp"]))
                 (Ext.sourceContent cn o cl c (includeLine c))
                 (store (joinPath base [c ++ ".hpp"]) (Ext.headerContent cn o cl c) (files s)))
          (app (log s)
             [EAsk PHeaderFolder "include"; EAsk PSourceFolder "src";
              EWrite WHeader (joinPath base [c ++ ".hpp"]) (Ext.headerContent cn o cl c);
              EWrite WSource (joinPath base (app (split_char "/" (trim si)) [c ++ ".cpp"]))
                (Ext.sourceContent cn o cl c (includeLine c));
              EInfo msg])).
Proof.
  intros Hh Hhe Ht Hs Hse Hw.
  assert (Ehi : String.eqb hi "" = false) by (apply String.eqb_neq; exact Hhe).
  assert (Esi : String.eqb si "" = false) by (apply String.eqb_neq; exact Hse).
  unfold Ext.separateFolders, showInputBox, bind, emit, getEnv, ret.
  cbv beta iota zeta. rewrite Hh. unfold nonEmpty at 1. rewrite Ehi.
  cbv beta iota zeta. rewrite Hs. unfold nonEmpty. rewrite Esi. cbv beta iota zeta.
  rewrite writeClassFiles_ok by apply Hw. rewrite Ht.
  change (app (split_char "/" "") [c ++ ".hpp"]) with ("" :: [c ++ ".hpp"]).
  rewrite (joinPath_empty_seg base [c ++ ".hpp"]).
  cbn [files log]. rewrite <- !app_assoc. eexists. reflexivity.
Qed.

(** extension.ts, a whole run: one workspace folder used as base, an
    existing COPYRIGHT.txt, a class name, any namespace answer, "Same
    Folder" and a dismissed target prompt write the header and then the
    source file into the base folder, built from the notice, and report
    success, after exactly five prompts. *)
Theorem ext_same_folder_run (h : Env) (s : St) n root entries t c :
  workspaceFolders h = [(n, root)] ->
  readDirectoryResult h root = Some entries ->
  user h PSubfolder = Some "(Use current folder)" ->
  lookup (joinPath root ["COPYRIGHT.txt"]) (files s) = Some t ->
  user h PClassName = Some c -> c <> "" ->
  user h PPlacement = Some "Same Folder" ->
  user h PTargetFolder = None ->
  (forall u, writeFails h u = false) ->
  let '(o, cl) := namespaceBlocks (user h PNamespace) in
  exists msg, Ext.createClassFiles h s =
    (Ok tt,
     mkSt (store (joinPath root [c ++ ".cpp"]) (Ext.sourceContent t o cl c (includeLine c))
             (store (joinPath root [c ++ ".hpp"]) (Ext.headerContent t o cl c) (files s)))
          (app (log s)
             [EAsk PSubfolder ""; EAsk PClassName ""; EAsk PNamespace ""; EAsk PPlacement "";
              EAsk PTargetFolder "";
              EWrite WHeader (joinPath root [c ++ ".hpp"]) (Ext.headerContent t o cl c);
              EWrite WSource (joinPath root [c ++ ".cpp"])
                (Ext.sourceContent t o cl c (includeLine c));
              EInfo msg])).
Proof.
  intros Hw Hr Hp Hc Hn Hne Hpl Ht Hf.
  assert (En : String.eqb c "" = false) by (apply String.eqb_neq; exact Hne).
  destruct (namespaceBlocks (user h PNamespace)) as [o cl] eqn:Ens.
  unfold Ext.createClassFiles, Ext.selectBaseFolder, Ext.selectSubFolder,
    Ext.getSubdirectories, getOrCreateCopyrightNotice, Ext.sameFolder,
    readDirectory, showInputBox, showQuickPick, stat, readFile,
    catch, bind, ret, emit, getEnv.
  repeat (first [rewrite Hw | rewrite Hr | rewrite Hp | rewrite Hc | rewrite Hn | rewrite En
                 | rewrite Ens | rewrite Hpl | rewrite Ht | rewrite writeClassFiles_ok by apply Hf];
          cbn -[joinPath lookup store writeClassFiles namespaceBlocks
                Ext.headerContent Ext.sourceContent]).
  rewrite <- !app_assoc. eexists. reflexivity.
Qed.

(** Relative-path revision, a whole run: with an existing COPYRIGHT.txt in
    the first workspace folder, a class name, any namespace answer, the
    same-folder placement and a dismissed target prompt, the header and
    then the source file are written into that folder and success is
    reported, after exactly four prompts. *)
Theorem rel_same_folder_run (h : Env) (s : St) f rest t c :
  workspaceFolders h = f :: rest ->
  lookup (joinPath (snd f) ["COPYRIGHT.txt"]) (files s) = Some t ->
  user h PClassName = Some c -> c <> "" ->
  user h PPlacement = Some "Place files in the same folder" ->
  user h PTargetFolder = None ->
  (forall u, writeFails h u = false) ->
  let '(o, cl) := namespaceBlocks (user h PNamespace) in
  exists msg, Rel.createClassFiles h s =
    (Ok tt,
     mkSt (store (joinPath (snd f) [c ++ ".cpp"]) (Rel.sourceContent t o cl c (includeLine c))
             (store (joinPath (snd f) [c ++ ".hpp"]) (Rel.headerContent t o cl c) (files s)))
          (app (log s)
             [EAsk PClassName ""; EAsk PNamespace ""; EAsk PPlacement ""; EAsk PTargetFolder "";
              EWrite WHeader (joinPath (snd f) [c ++ ".hpp"]) (Rel.headerContent t o cl c);
              EWrite WSource (joinPath (snd f) [c ++ ".cpp"])
                (Rel.sourceContent t o cl c (includeLine c));
              EInfo msg])).
Proof.
  intros Hw Hc Hn Hne Hpl Ht Hf.
  assert (En : String.eqb c "" = false) by (apply String.eqb_neq; exact Hne).
  destruct (namespaceBlocks (user h PNamespace)) as [o cl] eqn:Ens.
  unfold Rel.createClassFiles, getOrCreateCopyrightNotice, Rel.sameFolder,
    showInputBox, showQuickPick, stat, readFile, catch, bind, ret, emit, getEnv.
  repeat (first [rewrite Hw | rewrite Hc | rewrite Hn | rewrite En
                 | rewrite Ens | rewrite Hpl | rewrite Ht | rewrite writeClassFiles_ok by apply Hf];
          cbn -[joinPath lookup store writeClassFiles namespaceBlocks
                Rel.headerContent Rel.sourceContent]).
  rewrite <- !app_assoc. eexists. reflexivity.
Qed.







(** ** Witnesses of the further properties *)

Lemma join_split_slash_witness : join "/" (split_char "/" "include/math") = "include/math".
Proof. apply join_split_slash. Defined.

Lemma rel_includeDirective_diverging_witness :
  Rel.includeDirective "/w" "include/math" "src/detail" "Foo" =
  includeLine "../../include/math/Foo".
Proof.
  apply (rel_includeDirective_diverging "/w" "include/math" "src/detail" "Foo");
    simpl; intuition discriminate.
Defined.

Lemma ext_defaultSourceSubfolder_behaviour_witness :
  Ext.defaultSourceSubfolder "includes" = "src/s" /\ Ext.defaultSourceSubfolder "lib" = "src".
Proof.
  destruct (ext_defaultSourceSubfolder_behaviour "s") as (_ & _ & H3 & H4).
  split; [apply H3; reflexivity | apply H4; reflexivity].
Defined.

Lemma ext_includeDirective_behaviour_witness :
  Ext.includeDirective "include/" "Foo" = includeLine "Foo" /\
  Ext.includeDirective "lib" "Foo" = includeLine "lib/Foo".
Proof.
  destruct (ext_includeDirective_behaviour "Foo" "") as (H1 & _ & H3).
  split; [exact H1 | apply H3; [reflexivity | reflexivity | discriminate]].
Defined.

Lemma no_workspace_folder_witness :
  workspaceFolders emptyHost = [] /\
  Ext.createClassFiles emptyHost demoState =
    (Ok tt, mkSt (files demoState) (app (log demoState) [EError "No workspace folder open."])) /\
  Rel.createClassFiles emptyHost demoState =
    (Ok tt, mkSt (files demoState) (app (log demoState) [EError "No workspace folder open."])).
Proof.
  split; [reflexivity | apply no_workspace_folder; reflexivity].
Defined.

Lemma ext_unreadable_base_witness :
  Ext.createClassFiles unreadableHost demoState =
    (Ok tt, mkSt (files demoState)
              (app (log demoState) [EError "Failed to read subdirectories: FileSystemError"])).
Proof. apply (ext_unreadable_base unreadableHost demoState "nebula" demoRoot); reflexivity. Defined.

Lemma author_dismissed_messages_witness :
  let h := demoHost (pickAnswers "(Use current folder)") noWriteFails in
  Ext.createClassFiles h (mkSt [] []) =
    (Ok tt, mkSt [] (app (log (snd (Ext.selectBaseFolder h (mkSt [] []))))
                     [EAsk PAuthor ""; EError "Author name is required.";
                      EError "Author name is required."])) /\
  Rel.createClassFiles h (mkSt [] []) =
    (Ok tt, mkSt [] [EAsk PAuthor ""; EError "Author name is required."]).
Proof.
  cbv zeta.
  destruct (author_dismissed_messages (demoHost (pickAnswers "(Use current folder)") noWriteFails)
              (mkSt [] [])) as [H1 H2]; [left; reflexivity | ].
  split.
  - apply (H1 demoRoot); reflexivity.
  - apply (H2 ("nebula", demoRoot) []); reflexivity.
Defined.

Lemma ext_selectSubFolder_pick_dir_witness :
  fst (Ext.selectSubFolder demoRoot (demoHost (pickAnswers "src") noWriteFails) demoState) =
  Ok (Some (joinPath demoRoot ["src"])).
Proof.
  apply (ext_selectSubFolder_pick_dir demoRoot _ demoState [("include", true); ("src", true)] "src");
    [reflexivity | repeat constructor | simpl; tauto | discriminate | reflexivity].
Defined.

Lemma ext_selectSubFolder_current_label_witness :
  fst (Ext.selectSubFolder demoRoot (listingHost (pickAnswers "(Use current folder)")) demoState) =
  Ok (Some demoRoot).
Proof.
  apply (ext_selectSubFolder_current_label demoRoot _ demoState mixedEntries); reflexivity.
Defined.

Lemma ext_selectSubFolder_in_root_witness :
  joinPath demoRoot ["include"] = demoRoot \/
  exists n, In (n, true) mixedEntries /\ joinPath demoRoot ["include"] = joinPath demoRoot [n].
Proof.
  apply (ext_selectSubFolder_in_root demoRoot (listingHost (pickAnswers "include")) demoState
           (snd (Ext.selectSubFolder demoRoot (listingHost (pickAnswers "include")) demoState))
           mixedEntries); reflexivity.
Defined.

Lemma copyright_create_then_read_witness :
  let (r1, s1) := getOrCreateCopyrightNotice demoRoot
                    (demoHost newAuthorAnswers noWriteFails) (mkSt [] []) in
  r1 = Ok (noticeText "Jane" "Nebula") /\
  lookup (joinPath demoRoot ["COPYRIGHT.txt"]) (files s1) = Some (noticeText "Jane" "Nebula") /\
  getOrCreateCopyrightNotice demoRoot (demoHost newAuthorAnswers noWriteFails) s1 =
    (Ok (noticeText "Jane" "Nebula"), s1).
Proof.
  apply copyright_create_then_read; (reflexivity || discriminate).
Defined.

Lemma rel_first_workspace_only_witness :
  Rel.createClassFiles (twoRootHost relSameAnswers) demoState =
  Rel.createClassFiles (mkEnv relSameAnswers [("nebula", demoRoot)]
                         (readDirectoryResult (twoRootHost relSameAnswers)) noWriteFails) demoState.
Proof.
  apply (rel_first_workspace_only (twoRootHost relSameAnswers) demoState ("nebula", demoRoot)
           [("other", ["srv"; "other"])]); reflexivity.
Defined.

Lemma separate_folders_keep_both_files_witness :
  let h := demoHost relSplitAnswers noWriteFails in
  (let (r, s') := Ext.separateFolders demoRoot "" "Foo" "" "" (demoHost (splitAnswers "include" "include") noWriteFails) demoState in
   r = Ok tt /\
   lookup (joinPath demoRoot (app (split_char "/" (trim "include")) ["Foo" ++ ".hpp"])) (files s') =
     Some (Ext.headerContent "" "" "" "Foo") /\
   lookup (joinPath demoRoot (app (split_char "/" (trim "include")) ["Foo" ++ ".cpp"])) (files s') =
     Some (Ext.sourceContent "" "" "" "Foo" (Ext.includeDirective (trim "include") "Foo"))) /\
  (let (r, s') := Rel.separateFolders demoRoot "" "Foo" "" "" h demoState in
   r = Ok tt /\
   lookup (joinPath demoRoot ["include"; "Foo" ++ ".hpp"]) (files s') =
     Some (Rel.headerContent "" "" "" "Foo") /\
   lookup (joinPath demoRoot ["src"; "Foo" ++ ".cpp"]) (files s') =
     Some (Rel.sourceContent "" "" "" "Foo"
             (Rel.includeDirective (fsPath demoRoot) "include" "src" "Foo"))).
Proof.
  cbv zeta. split.
  - apply (proj1 (separate_folders_keep_both_files
                    (demoHost (splitAnswers "include" "include") noWriteFails) demoState
                    demoRoot "" "Foo" "" "" (fun _ => eq_refl)) "include" "include");
      (reflexivity || discriminate).
  - exact (proj2 (separate_folders_keep_both_files (demoHost relSplitAnswers noWriteFails)
                    demoState demoRoot "" "Foo" "" "" (fun _ => eq_refl))).
Defined.

Lemma ext_blank_header_folder_witness :
  exists msg, Ext.separateFolders demoRoot "" "Foo" "" "" (demoHost (splitAnswers "  " "src") noWriteFails)
                demoState =
    (Ok tt,
     mkSt (store (joinPath demoRoot (app (split_char "/" (trim "src")) ["Foo" ++ ".cpp"]))
                 (Ext.sourceContent "" "" "" "Foo" (includeLine "Foo"))
                 (store (joinPath demoRoot ["Foo" ++ ".hpp"]) (Ext.headerContent "" "" "" "Foo")
                        (files demoState)))
          (app (log demoState)
             [EAsk PHeaderFolder "include"; EAsk PSourceFolder "src";
              EWrite WHeader (joinPath demoRoot ["Foo" ++ ".hpp"]) (Ext.headerContent "" "" "" "Foo");
              EWrite WSource (joinPath demoRoot (app (split_char "/" (trim "src")) ["Foo" ++ ".cpp"]))
                (Ext.sourceContent "" "" "" "Foo" (includeLine "Foo"));
              EInfo msg])).
Proof.
  apply ext_blank_header_folder with (hi := "  ");
    (reflexivity || discriminate || (intros; reflexivity)).
Defined.

Lemma ext_same_folder_run_witness :
  let '(o, cl) := namespaceBlocks None in
  exists msg, Ext.createClassFiles (demoHost (demoAnswers "Same Folder") noWriteFails) demoState =
    (Ok tt,
     mkSt (store (joinPath demoRoot ["Foo" ++ ".cpp"])
                 (Ext.sourceContent (noticeText "Jane" "Nebula") o cl "Foo" (includeLine "Foo"))
             (store (joinPath demoRoot ["Foo" ++ ".hpp"])
                    (Ext.headerContent (noticeText "Jane" "Nebula") o cl "Foo") (files demoState)))
          (app (log demoState)
             [EAsk PSubfolder ""; EAsk PClassName ""; EAsk PNamespace ""; EAsk PPlacement "";
              EAsk PTargetFolder "";
              EWrite WHeader (joinPath demoRoot ["Foo" ++ ".hpp"])
                (Ext.headerContent (noticeText "Jane" "Nebula") o cl "Foo");
              EWrite WSource (joinPath demoRoot ["Foo" ++ ".cpp"])
                (Ext.sourceContent (noticeText "Jane" "Nebula") o cl "Foo" (includeLine "Foo"));
              EInfo msg])).
Proof.
  exact (ext_same_folder_run (demoHost (demoAnswers "Same Folder") noWriteFails) demoState
           "nebula" demoRoot [("include", true); ("src", true)] (noticeText "Jane" "Nebula") "Foo"
           eq_refl eq_refl eq_refl eq_refl eq_refl ltac:(discriminate) eq_refl eq_refl
           (fun _ => eq_refl)).
Defined.

Lemma rel_same_folder_run_witness :
  let '(o, cl) := namespaceBlocks None in
  exists msg, Rel.createClassFiles (demoHost relSameAnswers noWriteFails) demoState =
    (Ok tt,
     mkSt (store (joinPath demoRoot ["Foo" ++ ".cpp"])
                 (Rel.sourceContent (noticeText "Jane" "Nebula") o cl "Foo" (includeLine "Foo"))
             (store (joinPath demoRoot ["Foo" ++ ".hpp"])
                    (Rel.headerContent (noticeText "Jane" "Nebula") o cl "Foo") (files demoState)))
          (app (log demoState)
             [EAsk PClassName ""; EAsk PNamespace ""; EAsk PPlacement ""; EAsk PTargetFolder "";
              EWrite WHeader (joinPath demoRoot ["Foo" ++ ".hpp"])
                (Rel.headerContent (noticeText "Jane" "Nebula") o cl "Foo");
              EWrite WSource (joinPath demoRoot ["Foo" ++ ".cpp"])
                (Rel.sourceContent (noticeText "Jane" "Nebula") o cl "Foo" (includeLine "Foo"));
              EInfo msg])).
Proof.
  exact (rel_same_folder_run (demoHost relSameAnswers noWriteFails) demoState
           ("nebula", demoRoot) [] (noticeText "Jane" "Nebula") "Foo"
           eq_refl eq_refl eq_refl ltac:(discriminate) eq_refl eq_refl (fun _ => eq_refl)).
Defined.
